(** * zmq.web.zmqweb: Tornado handlers run in back-end processes over ZeroMQ

    A shallow embedding of [zmq/web/zmqweb.py]: the front-end proxies
    ([ZMQApplicationProxy], [ZMQStreamingApplicationProxy]), the back-end
    request classes ([ZMQHTTPRequest], [ZMQStreamingHTTPRequest]) and the
    back-end application ([ZMQApplication]).

    Python objects are records, [self] is the state of a small
    state/exception/trace monad, and everything that leaves the module
    (logging, the zmq stream, the Tornado handler, the delayed callbacks)
    is recorded as an event. *)

From stdpp Require Import base strings list gmap pretty.
From Stdlib Require Import ZArith.

Local Open Scope string_scope.
Local Open Scope list_scope.
Local Open Scope nat_scope.
Local Open Scope stdpp_scope.
Set Warnings "-register-all,-clear-no-such-hyp".

(** ** Python values, exceptions *)

(** A zmq frame is a byte string. *)
Abbreviation frame := string (only parsing).

(** The exception classes the module can meet. [socket_error] is
    [socket.error]; [Exception_ c] is any other class [c]. *)
Inductive exn :=
| IndexError
| KeyError
| ValueError
| TypeError
| NameError
| socket_error
| Exception_ (cls : string).

#[global] Instance exn_eq_dec : EqDecision exn.
Proof. solve_decision. Defined.

Inductive result (A : Type) :=
| Ok (a : A)
| Raise (e : exn).
Arguments Ok {A} a.
Arguments Raise {A} e.

Definition result_bind {A B} (r : result A) (f : A → result B) : result B :=
  match r with
  | Ok a => f a
  | Raise e => Raise e
  end.

(** The values that travel through JSON: the request dictionary [req] and
    what [jsonapi.loads] gives back. A dict keeps its items in insertion
    order, as an association list with unique keys. *)
Inductive pyval :=
| PNone
| PBool (b : bool)
| PInt (n : Z)
| PStr (s : string)
| PList (l : list pyval)
| PDict (d : list (string * pyval)).

(** Python truth value, as used by [x or y]. *)
Definition truthy (v : pyval) : bool :=
  match v with
  | PNone => false
  | PBool b => b
  | PInt n => negb (n =? 0)%Z
  | PStr s => negb (String.eqb s "")
  | PList l => match l with [] => false | _ => true end
  | PDict d => match d with [] => false | _ => true end
  end.

(** [x or y] *)
Definition py_or (x y : pyval) : pyval := if truthy x then x else y.

(** [d[k] = v] on the items of a dict. *)
Fixpoint dict_setitem (d : list (string * pyval)) (k : string) (v : pyval)
  : list (string * pyval) :=
  match d with
  | [] => [(k, v)]
  | (k', v') :: d' =>
      if decide (k' = k) then (k, v) :: d' else (k', v') :: dict_setitem d' k v
  end.

Fixpoint dict_lookup (d : list (string * pyval)) (k : string) : option pyval :=
  match d with
  | [] => None
  | (k', v) :: d' => if decide (k' = k) then Some v else dict_lookup d' k
  end.

(** [v[k]] for a string key [k]: [KeyError] on a dict without the key,
    [TypeError] on anything that is not a dict. *)
Definition subscript (v : pyval) (k : string) : result pyval :=
  match v with
  | PDict d => match dict_lookup d k with Some x => Ok x | None => Raise KeyError end
  | _ => Raise TypeError
  end.

(** [l.index(x)]: the first position of [x], [ValueError] when absent. *)
Fixpoint list_index (l : list frame) (x : frame) : result nat :=
  match l with
  | [] => Raise ValueError
  | y :: l' =>
      if decide (y = x) then Ok 0
      else result_bind (list_index l' x) (λ n, Ok (S n))
  end.

(** [l[i]] for [i >= 0]: [IndexError] out of range. *)
Definition getitem (l : list frame) (i : nat) : result frame :=
  match l !! i with
  | Some x => Ok x
  | None => Raise IndexError
  end.

(** ** Objects *)

(** Object identities of the Tornado handlers, of the write callbacks and
    of the [DelayedCallback] timers. *)
Abbreviation handler := nat (only parsing).
Abbreviation callback := nat (only parsing).
Abbreviation dc_id := nat (only parsing).

(** The two delivery strategies: a class and its [Streaming] subclass. *)
Inductive delivery := Bulk | Streaming.

#[global] Instance delivery_eq_dec : EqDecision delivery.
Proof. solve_decision. Defined.

(** [tornado.httpserver.HTTPRequest], as [send_request] reads it. *)
Module httpserver.
Record HTTPRequest := {
  method : string;
  uri : string;
  version : string;
  headers : list (string * pyval);
  body : frame;
  remote_ip : string;
  protocol : string;
  host : string;
  files : list (string * pyval);
  arguments : list (string * pyval);
}.
End httpserver.

(** [ZMQHTTPRequest] and [ZMQStreamingHTTPRequest] (field [cls]). The
    fields filled from JSON are [pyval]s. [stream] is the application's one
    stream; [_start_time] and [_finish_time] are wall-clock times and are
    left out. *)
Record ZMQHTTPRequest := {
  cls : delivery;
  method : pyval;
  uri : pyval;
  version : pyval;
  headers : pyval;
  body : frame;
  remote_ip : pyval;
  protocol : pyval;
  host : pyval;
  files : pyval;
  idents : list frame;
  msg_id : frame;
  _chunks : list frame;
  _write_callback : option callback;
  path : string;
  query : string;
  arguments : pyval;
}.

(** [ZMQApplication]: of the settings only [http_request_class] is read. *)
Record ZMQApplication := {
  settings_http_request_class : option delivery;
}.

(** [ZMQApplicationProxy] and [ZMQStreamingApplicationProxy] (field
    [proxy_cls]). [_callbacks] is the dict of pending requests. Of the loop
    the proxy keeps what its timers need: [delayed] lists the
    [DelayedCallback] objects created so far, each with the [handler] and
    [msg_id] its [_handle_timeout] closure captured, a timer being named by
    its position; [_running] holds the timers started and neither stopped
    nor fired. [uuid4_calls] counts the calls of [uuid.uuid4]. *)
Record ZMQApplicationProxy := {
  proxy_cls : delivery;
  _callbacks : gmap frame (handler * option dc_id);
  delayed : list (handler * frame);
  _running : gset dc_id;
  uuid4_calls : nat;
}.

(** ** Events *)

Inductive level := DEBUG | ERROR.

(** The calls made on a Tornado [RequestHandler]. *)
Module RequestHandler.
Inductive method :=
| write (chunk : frame)
| flush
| finish
| send_error (status_code : Z).
End RequestHandler.

#[global] Instance method_eq_dec : EqDecision RequestHandler.method.
Proof. solve_decision. Defined.

Inductive event :=
| logging (lvl : level) (msg : string)
| send_multipart (msg_list : list frame)
| handler_call (h : handler) (m : RequestHandler.method)
| handler_setattr (h : handler) (attr : string)
| dc_start (dc : dc_id)
| dc_stop (dc : dc_id)
| application_call (request : ZMQHTTPRequest) (args kwargs : pyval)
| callback_call (cb : callback).

(** ** What the module imports *)

(** The collaborators that are not part of this file: [uuid.uuid4] (its
    [k]-th call), [zmq.utils.jsonapi] ([dumps] raises on a value it cannot
    serialise, [loads] on a text it cannot parse),
    [tornado.escape.native_str], [urlparse.urlsplit] (path and query of the
    five parts), and which of the calls into handler, application or write
    callback raise: [raises] is asked with the whole history, the call
    itself last. *)
Class Externals := {
  uuid4 : nat → frame;
  dumps : pyval → result frame;
  loads : frame → result pyval;
  native_str : pyval → result string;
  urlsplit : string → result (string * string);
  raises : list event → option exn;
}.

(** The names bound at module level: the imports of lines 39-54 and the
    classes the module defines. *)
Definition module_globals : list string :=
  [ "logging"; "time"; "uuid"; "urlparse";
    "httpserver"; "httputil"; "web"; "stack_context"; "native_str"; "b";
    "zmq"; "ZMQStream"; "IOLoop"; "DelayedCallback"; "jsonapi";
    "ZMQApplicationProxy"; "ZMQStreamingApplicationProxy";
    "ZMQRequestHandlerProxy"; "ZMQHTTPRequest"; "ZMQStreamingHTTPRequest";
    "ZMQApplication" ].

(** ** The monad: [self], exceptions, history of events *)

Record outcome (S A : Type) := Outcome {
  result_of : result A;
  self_of : S;
  history_of : list event;
}.
Arguments Outcome {S A} _ _ _.
Arguments result_of {S A} _.
Arguments self_of {S A} _.
Arguments history_of {S A} _.

(** A method of an object of class [S]: given the history of events and
    [self], it gives a result or raises, the new [self] (kept when it
    raises, as Python keeps mutations) and the history extended with the
    events it emitted. *)
Definition M (S A : Type) : Type := list event → S → outcome S A.

Definition ret {S A} (a : A) : M S A := λ h s, Outcome (Ok a) s h.

Definition bind {S A B} (m : M S A) (f : A → M S B) : M S B := λ h s,
  match m h s with
  | Outcome (Ok a) s' h' => f a h' s'
  | Outcome (Raise e) s' h' => Outcome (Raise e) s' h'
  end.

Definition throw {S A} (e : exn) : M S A := λ h s, Outcome (Raise e) s h.

Definition lift {S A} (r : result A) : M S A := λ h s, Outcome r s h.

(** [try: m except: handler] where [handler] receives the exception. *)
Definition try_except {S A} (m : M S A) (handler : exn → M S A) : M S A := λ h s,
  match m h s with
  | Outcome (Ok a) s' h' => Outcome (Ok a) s' h'
  | Outcome (Raise e) s' h' => handler e h' s'
  end.

Definition get_self {S} : M S S := λ h s, Outcome (Ok s) s h.
Definition set_self {S} (s : S) : M S unit := λ h _, Outcome (Ok tt) s h.

(** An effect that cannot raise. *)
Definition emit {S} (e : event) : M S unit := λ h s, Outcome (Ok tt) s (h ++ [e]).

Declare Scope py_scope.
Delimit Scope py_scope with py.
Notation "x <- m ;; k" := (bind m (λ x, k))
  (at level 100, m at next level, right associativity) : py_scope.
Notation "m ;;; k" := (bind m (λ _, k))
  (at level 100, right associativity) : py_scope.
Local Open Scope py_scope.

(** [for x in l: f(x)] *)
Fixpoint for_each {S A} (l : list A) (f : A → M S unit) : M S unit :=
  match l with
  | [] => ret tt
  | x :: l' => f x ;;; for_each l' f
  end.

Section zmqweb.
Context `{E : Externals}.

(** A call that leaves the module and may raise. *)
Definition external {S} (e : event) : M S unit := λ h s,
  Outcome (match raises (h ++ [e]) with Some x => Raise x | None => Ok tt end)
    s (h ++ [e]).

(** Evaluating the global name [name]: [NameError] when it is not bound. *)
Definition load_global {S} (name : string) : M S unit :=
  if decide (name ∈ module_globals) then ret tt else throw NameError.

(** *** Back-end request classes *)

(** [ZMQHTTPRequest.__init__]; [headers or httputil.HTTPHeaders()],
    [body or ""], [files or {}]. *)
Definition ZMQHTTPRequest__init__ (c : delivery)
    (method uri version headers : pyval) (body : frame)
    (remote_ip protocol host files arguments : pyval)
    (idents : list frame) (msg_id : frame) : result ZMQHTTPRequest :=
  result_bind (native_str uri) (λ u,
  result_bind (urlsplit u) (λ pq,
  Ok {| cls := c;
        method := method;
        uri := uri;
        version := version;
        headers := py_or headers (PDict []);
        body := if String.eqb body "" then "" else body;
        remote_ip := remote_ip;
        protocol := protocol;
        host := host;
        files := py_or files (PDict []);
        idents := idents;
        msg_id := msg_id;
        _chunks := [];
        _write_callback := None;
        path := pq.1;
        query := pq.2;
        arguments := arguments |})).

Definition set_chunks (r : ZMQHTTPRequest) (chunks : list frame) : ZMQHTTPRequest :=
  {| cls := cls r; method := method r; uri := uri r; version := version r;
     headers := headers r; body := body r; remote_ip := remote_ip r;
     protocol := protocol r; host := host r; files := files r;
     idents := idents r; msg_id := msg_id r;
     _chunks := chunks;
     _write_callback := _write_callback r;
     path := path r; query := query r; arguments := arguments r |}.

Definition set_write_callback (r : ZMQHTTPRequest) (cb : option callback)
  : ZMQHTTPRequest :=
  {| cls := cls r; method := method r; uri := uri r; version := version r;
     headers := headers r; body := body r; remote_ip := remote_ip r;
     protocol := protocol r; host := host r; files := files r;
     idents := idents r; msg_id := msg_id r;
     _chunks := _chunks r;
     _write_callback := cb;
     path := path r; query := query r; arguments := arguments r |}.

(** [_create_msg_list]: a new list, [idents] then [msg_id]. *)
Definition _create_msg_list : M ZMQHTTPRequest (list frame) :=
  self <- get_self ;;
  let msg_list := [] in
  let msg_list := msg_list ++ idents self in
  let msg_list := msg_list ++ [msg_id self] in
  ret msg_list.

(** [ZMQHTTPRequest.write] *)
Definition ZMQHTTPRequest_write (chunk : frame) (callback : option callback)
  : M ZMQHTTPRequest unit :=
  emit (logging DEBUG "Buffering chunk: %r") ;;;
  (match callback with
   | Some cb => self <- get_self ;; set_self (set_write_callback self (Some cb))
   | None => ret tt
   end) ;;;
  self <- get_self ;;
  set_self (set_chunks self (_chunks self ++ [chunk])).

(** [ZMQHTTPRequest.finish] *)
Definition ZMQHTTPRequest_finish : M ZMQHTTPRequest unit :=
  msg_list <- _create_msg_list ;;
  self <- get_self ;;
  let msg_list := msg_list ++ _chunks self in
  set_self (set_chunks self []) ;;;
  emit (logging DEBUG "Sending reply: %r") ;;;
  emit (send_multipart msg_list) ;;;
  self <- get_self ;;
  match _write_callback self with
  | Some cb =>
      try_except (external (callback_call cb))
        (λ _, emit (logging ERROR "Unexpected exception in write callback")) ;;;
      self <- get_self ;;
      set_self (set_write_callback self None)
  | None => ret tt
  end.

(** [ZMQStreamingHTTPRequest.write] *)
Definition ZMQStreamingHTTPRequest_write (chunk : frame) (callback : option callback)
  : M ZMQHTTPRequest unit :=
  msg_list <- _create_msg_list ;;
  let msg_list := msg_list ++ ["DATA"; chunk] in
  emit (logging DEBUG "Sending write: %r") ;;;
  emit (send_multipart msg_list) ;;;
  match callback with
  | Some cb =>
      try_except (external (callback_call cb))
        (λ _, emit (logging ERROR "Unexpected exception in write callback"))
  | None => ret tt
  end.

(** [ZMQStreamingHTTPRequest.finish] *)
Definition ZMQStreamingHTTPRequest_finish : M ZMQHTTPRequest unit :=
  msg_list <- _create_msg_list ;;
  let msg_list := msg_list ++ ["FINISH"] in
  emit (logging DEBUG "Sending finish: %r") ;;;
  emit (send_multipart msg_list).

(** Method resolution on the class of [self]. *)
Definition write (chunk : frame) (callback : option callback) : M ZMQHTTPRequest unit :=
  self <- get_self ;;
  match cls self with
  | Bulk => ZMQHTTPRequest_write chunk callback
  | Streaming => ZMQStreamingHTTPRequest_write chunk callback
  end.

Definition finish : M ZMQHTTPRequest unit :=
  self <- get_self ;;
  match cls self with
  | Bulk => ZMQHTTPRequest_finish
  | Streaming => ZMQStreamingHTTPRequest_finish
  end.

(** *** Back-end application *)

(** [ZMQApplication._parse_request] *)
Definition _parse_request (msg_list : list frame)
  : M ZMQApplication (ZMQHTTPRequest * pyval * pyval) :=
  let len_msg_list := length msg_list in
  if len_msg_list <? 4 then throw IndexError
  else
    i <- lift (list_index msg_list "|") ;;
    let idents := take i msg_list in
    msg_id <- lift (getitem msg_list (i + 1)) ;;
    req <- lift (result_bind (getitem msg_list (i + 2)) loads) ;;
    body <- (if len_msg_list =? i + 4 then lift (getitem msg_list (i + 3)) else ret "") ;;
    self <- get_self ;;
    let http_request_class := default Bulk (settings_http_request_class self) in
    method <- lift (subscript req "method") ;;
    uri <- lift (subscript req "uri") ;;
    version <- lift (subscript req "version") ;;
    headers <- lift (subscript req "headers") ;;
    remote_ip <- lift (subscript req "remote_ip") ;;
    protocol <- lift (subscript req "protocol") ;;
    host <- lift (subscript req "host") ;;
    files <- lift (subscript req "files") ;;
    arguments <- lift (subscript req "arguments") ;;
    request <- lift (ZMQHTTPRequest__init__ http_request_class
                       method uri version headers body remote_ip protocol host
                       files arguments idents msg_id) ;;
    args <- lift (subscript req "args") ;;
    kwargs <- lift (subscript req "kwargs") ;;
    ret (request, args, kwargs).

(** [ZMQApplication._handle_request], the [on_recv] callback of the
    back-end stream. [self.__call__] is Tornado's dispatch. *)
Definition _handle_request (msg_list : list frame) : M ZMQApplication unit :=
  emit (logging DEBUG "Handling request: %r") ;;;
  parsed <- try_except
              (p <- _parse_request msg_list ;; ret (Some p))
              (λ e, match e with
                    | IndexError =>
                        emit (logging ERROR
                          "Unexpected request message format in ZMQApplication._handle_request.") ;;;
                        ret None
                    | _ => throw e
                    end) ;;
  match parsed with
  | Some (request, args, kwargs) => external (application_call request args kwargs)
  | None => ret tt
  end.

(** *** Front-end proxies *)

Definition set_callbacks (p : ZMQApplicationProxy)
    (m : gmap frame (handler * option dc_id)) : ZMQApplicationProxy :=
  {| proxy_cls := proxy_cls p; _callbacks := m; delayed := delayed p;
     _running := _running p; uuid4_calls := uuid4_calls p |}.

Definition set_running (p : ZMQApplicationProxy) (r : gset dc_id)
  : ZMQApplicationProxy :=
  {| proxy_cls := proxy_cls p; _callbacks := _callbacks p; delayed := delayed p;
     _running := r; uuid4_calls := uuid4_calls p |}.

(** [bytes(uuid.uuid4())] *)
Definition uuid4_bytes : M ZMQApplicationProxy frame :=
  self <- get_self ;;
  set_self {| proxy_cls := proxy_cls self; _callbacks := _callbacks self;
              delayed := delayed self; _running := _running self;
              uuid4_calls := S (uuid4_calls self) |} ;;;
  ret (uuid4 (uuid4_calls self)).

(** [self._callbacks[k] = v] *)
Definition callbacks_setitem (k : frame) (v : handler * option dc_id)
  : M ZMQApplicationProxy unit :=
  self <- get_self ;;
  set_self (set_callbacks self (<[k := v]> (_callbacks self))).

(** [self._callbacks.get(k)] *)
Definition callbacks_get (k : frame)
  : M ZMQApplicationProxy (option (handler * option dc_id)) :=
  self <- get_self ;;
  ret (_callbacks self !! k).

(** [self._callbacks.pop(k)]: [KeyError] when [k] is absent. *)
Definition callbacks_pop (k : frame)
  : M ZMQApplicationProxy (handler * option dc_id) :=
  self <- get_self ;;
  match _callbacks self !! k with
  | Some v => set_self (set_callbacks self (delete k (_callbacks self))) ;;; ret v
  | None => throw KeyError
  end.

(** [self._callbacks.pop(k, None)] *)
Definition callbacks_pop_default (k : frame)
  : M ZMQApplicationProxy (option (handler * option dc_id)) :=
  self <- get_self ;;
  match _callbacks self !! k with
  | Some v => set_self (set_callbacks self (delete k (_callbacks self))) ;;; ret (Some v)
  | None => ret None
  end.

(** Modelled from the spec: [zmq.eventloop.ioloop.DelayedCallback] is not
    in this file; the spec asks of the transport "a one-shot
    delayed-callback scheduler with [start()]/[stop()]", and calls the
    handle a "cancelable one-shot timer". This is the constructor,
    [DelayedCallback(_handle_timeout, timeout, self.loop)]: a new timer,
    not yet running. *)
Definition DelayedCallback (handler : handler) (msg_id : frame)
  : M ZMQApplicationProxy dc_id :=
  self <- get_self ;;
  set_self {| proxy_cls := proxy_cls self; _callbacks := _callbacks self;
              delayed := delayed self ++ [(handler, msg_id)];
              _running := _running self; uuid4_calls := uuid4_calls self |} ;;;
  ret (length (delayed self)).

(** Modelled from the spec: [dc.start()] of the one-shot timer, which
    schedules it. *)
Definition DelayedCallback_start (dc : dc_id) : M ZMQApplicationProxy unit :=
  self <- get_self ;;
  set_self (set_running self ({[dc]} ∪ _running self)) ;;;
  emit (dc_start dc).

(** Modelled from the spec: [dc.stop()] of the one-shot timer, which
    cancels it. *)
Definition DelayedCallback_stop (dc : dc_id) : M ZMQApplicationProxy unit :=
  self <- get_self ;;
  set_self (set_running self (_running self ∖ {[dc]})) ;;;
  emit (dc_stop dc).

(** The closure [_handle_timeout] of [send_request]. *)
Definition _handle_timeout (handler : handler) (msg_id : frame)
  : M ZMQApplicationProxy unit :=
  external (handler_call handler (RequestHandler.send_error 504)) ;;;
  try_except
    (_ <- callbacks_pop msg_id ;; ret tt)
    (λ e, match e with
          | KeyError => emit (logging ERROR "Unexpected error removing callbacks")
          | _ => throw e
          end).

(** The JSON dictionary [req] of [send_request]. *)
Definition request_dict (request : httpserver.HTTPRequest)
    (args : list pyval) (kwargs : list (string * pyval)) : list (string * pyval) :=
  let req := [] in
  let req := dict_setitem req "method" (PStr (httpserver.method request)) in
  let req := dict_setitem req "uri" (PStr (httpserver.uri request)) in
  let req := dict_setitem req "version" (PStr (httpserver.version request)) in
  let req := dict_setitem req "headers" (PDict (httpserver.headers request)) in
  let req := dict_setitem req "remote_ip" (PStr (httpserver.remote_ip request)) in
  let req := dict_setitem req "protocol" (PStr (httpserver.protocol request)) in
  let req := dict_setitem req "host" (PStr (httpserver.host request)) in
  let req := dict_setitem req "files" (PDict (httpserver.files request)) in
  let req := dict_setitem req "arguments" (PDict (httpserver.arguments request)) in
  let req := dict_setitem req "args" (PList args) in
  let req := dict_setitem req "kwargs" (PDict kwargs) in
  req.

(** [ZMQApplicationProxy.send_request] *)
Definition send_request (request : httpserver.HTTPRequest)
    (args : list pyval) (kwargs : list (string * pyval))
    (handler : handler) (timeout : Z) : M ZMQApplicationProxy frame :=
  let req := request_dict request args kwargs in
  let body := httpserver.body request in
  msg_id <- uuid4_bytes ;;
  json <- lift (dumps (PDict req)) ;;
  let msg_list := ["|"; msg_id; json] in
  let msg_list := if String.eqb body "" then msg_list else msg_list ++ [body] in
  emit (logging DEBUG "Sending request: %r") ;;;
  emit (send_multipart msg_list) ;;;
  dc <- (if (0 <? timeout)%Z then
           dc <- DelayedCallback handler msg_id ;;
           DelayedCallback_start dc ;;;
           ret (Some dc)
         else ret None) ;;
  callbacks_setitem msg_id (handler, dc) ;;;
  ret msg_id.

(** [ZMQApplicationProxy._handle_reply] *)
Definition ZMQApplicationProxy_handle_reply (msg_list : list frame)
  : M ZMQApplicationProxy unit :=
  emit (logging DEBUG "Handling reply: %r") ;;;
  let len_msg_list := length msg_list in
  if len_msg_list <? 2 then
    emit (logging ERROR
      "Unexpected reply from proxy in ZMQApplicationProxy._handle_reply")
  else
    msg_id <- lift (getitem msg_list 0) ;;
    let replies := drop 1 msg_list in
    cb <- callbacks_pop_default msg_id ;;
    match cb with
    | Some (handler, dc) =>
        (match dc with
         | Some dc => DelayedCallback_stop dc
         | None => ret tt
         end) ;;;
        try_except
          (for_each replies (λ reply,
             external (handler_call handler (RequestHandler.write reply))) ;;;
           emit (handler_setattr handler "_headers_written") ;;;
           emit (handler_setattr handler "_transforms") ;;;
           external (handler_call handler RequestHandler.finish))
          (λ _, emit (logging ERROR
             "Unexpected error in ZMQApplicationProxy._handle_reply"))
    | None => ret tt
    end.

(** [except socket.error: pass] followed by [except: otherwise]. The
    expression [socket.error] is evaluated when an exception reaches the
    clause. *)
Definition except_socket_error {S} (e : exn) (otherwise : M S unit) : M S unit :=
  load_global "socket" ;;;
  if decide (e = socket_error) then ret tt else otherwise.

(** [ZMQStreamingApplicationProxy._handle_reply] *)
Definition ZMQStreamingApplicationProxy_handle_reply (msg_list : list frame)
  : M ZMQApplicationProxy unit :=
  emit (logging DEBUG "Handling reply: %r") ;;;
  let len_msg_list := length msg_list in
  if len_msg_list <? 2 then
    emit (logging ERROR
      "Unexpected reply from proxy in ZMQStreamingApplicationProxy._handle_reply")
  else
    msg_id <- lift (getitem msg_list 0) ;;
    reply <- lift (getitem msg_list 1) ;;
    cb <- callbacks_get msg_id ;;
    match cb with
    | Some (handler, dc) =>
        if bool_decide (reply = "DATA") && (len_msg_list =? 3) then
          (match dc with
           | Some dc =>
               DelayedCallback_stop dc ;;;
               callbacks_setitem msg_id (handler, None)
           | None => ret tt
           end) ;;;
          try_except
            (chunk <- lift (getitem msg_list 2) ;;
             external (handler_call handler (RequestHandler.write chunk)) ;;;
             emit (handler_setattr handler "_headers_written") ;;;
             emit (handler_setattr handler "_transforms") ;;;
             external (handler_call handler RequestHandler.flush))
            (λ e, except_socket_error e
                    (emit (logging ERROR "Unexpected write error")))
        else if bool_decide (reply = "FINISH") then
          _ <- callbacks_pop msg_id ;;
          try_except
            (external (handler_call handler RequestHandler.finish))
            (λ e, except_socket_error e
                    (emit (logging ERROR "Unexpected finish error")))
        else ret tt
    | None => ret tt
    end.

(** Method resolution on the class of [self]. *)
Definition _handle_reply (msg_list : list frame) : M ZMQApplicationProxy unit :=
  self <- get_self ;;
  match proxy_cls self with
  | Bulk => ZMQApplicationProxy_handle_reply msg_list
  | Streaming => ZMQStreamingApplicationProxy_handle_reply msg_list
  end.

(** *** The front-end event loop *)

(** Modelled from the spec: the one-shot timer [dc] comes due. A timer
    that is not running (never started, stopped, or already fired) does
    nothing; a running one stops running and calls its callback,
    [_handle_timeout]. *)
Definition DelayedCallback_run (dc : dc_id) : M ZMQApplicationProxy unit :=
  self <- get_self ;;
  if decide (dc ∈ _running self) then
    set_self (set_running self (_running self ∖ {[dc]})) ;;;
    match delayed self !! dc with
    | Some (handler, msg_id) => _handle_timeout handler msg_id
    | None => ret tt
    end
  else ret tt.

(** What the single-threaded loop delivers to a proxy, one at a time. *)
Inductive loop_event :=
| on_request (request : httpserver.HTTPRequest) (args : list pyval)
    (kwargs : list (string * pyval)) (handler : handler) (timeout : Z)
| on_recv (msg_list : list frame)
| on_timeout (dc : dc_id).

Definition deliver (ev : loop_event) : M ZMQApplicationProxy unit :=
  match ev with
  | on_request request args kwargs handler timeout =>
      _ <- send_request request args kwargs handler timeout ;; ret tt
  | on_recv msg_list => _handle_reply msg_list
  | on_timeout dc => DelayedCallback_run dc
  end.

(** The loop goes on after a callback raised; [run] gives the proxy and
    the history after the events [evs]. *)
Fixpoint run (evs : list loop_event) (h : list event) (s : ZMQApplicationProxy)
  : ZMQApplicationProxy * list event :=
  match evs with
  | [] => (s, h)
  | ev :: evs' =>
      let o := deliver ev h s in
      run evs' (history_of o) (self_of o)
  end.

(** A new proxy of class [c]. *)
Definition ZMQApplicationProxy__init__ (c : delivery) : ZMQApplicationProxy :=
  {| proxy_cls := c; _callbacks := ∅; delayed := []; _running := ∅;
     uuid4_calls := 0 |}.

(** *** Observations *)

(** The frame lists given to [stream.send_multipart], in order. *)
Fixpoint sent (evs : list event) : list (list frame) :=
  match evs with
  | [] => []
  | send_multipart msg_list :: evs' => msg_list :: sent evs'
  | _ :: evs' => sent evs'
  end.

(** [msg_list] begins with the frames [P], followed by the frame [I]. *)
Definition begins_with (P : list frame) (I : frame) (msg_list : list frame) : Prop :=
  ∃ tail, msg_list = P ++ I :: tail.

(** What a back-end handler does with its request: it writes and it
    finishes. *)
Inductive request_call :=
| call_write (chunk : frame) (callback : option callback)
| call_finish.

Definition perform (c : request_call) : M ZMQHTTPRequest unit :=
  match c with
  | call_write chunk callback => write chunk callback
  | call_finish => finish
  end.

(** Only logging. *)
Definition is_logging (e : event) : Prop :=
  match e with
  | logging _ _ => True
  | _ => False
  end.

(** The calls made on the handler [hd], in order, and those of them that
    forward a reply: every call but [flush]. *)
Definition calls_of (hd : handler) (evs : list event) : list RequestHandler.method :=
  omap (λ e, match e with
             | handler_call hd' m => if decide (hd' = hd) then Some m else None
             | _ => None
             end) evs.

Definition forwarded (hd : handler) (evs : list event) : list RequestHandler.method :=
  filter (λ m, m ≠ RequestHandler.flush) (calls_of hd evs).

(** [handler.send_error(504)] *)
Definition call_send_error (hd : handler) : event :=
  handler_call hd (RequestHandler.send_error 504).

(** The frame list [send_request] builds for the correlation id [id],
    around the JSON text [json] of the request dictionary. *)
Definition encoded (id json : frame) (request : httpserver.HTTPRequest) : list frame :=
  let body := httpserver.body request in
  "|" :: id :: json :: (if String.eqb body "" then [] else [body]).

(** The back-end request [r] carries the fields of the front-end
    [request]. *)
Definition reproduces (request : httpserver.HTTPRequest) (r : ZMQHTTPRequest) : Prop :=
  method r = PStr (httpserver.method request) ∧
  uri r = PStr (httpserver.uri request) ∧
  version r = PStr (httpserver.version request) ∧
  headers r = PDict (httpserver.headers request) ∧
  remote_ip r = PStr (httpserver.remote_ip request) ∧
  protocol r = PStr (httpserver.protocol request) ∧
  host r = PStr (httpserver.host request) ∧
  files r = PDict (httpserver.files request) ∧
  arguments r = PDict (httpserver.arguments request).

(** The [dc.stop()] of a pending entry's timer, if it has one, and the
    proxy after the first [DATA] reply disarmed the entry of [id]. *)
Definition stopped (odc : option dc_id) : list event :=
  match odc with
  | Some dc => [dc_stop dc]
  | None => []
  end.

Definition disarmed (id : frame) (hd : handler) (odc : option dc_id)
    (s : ZMQApplicationProxy) : ZMQApplicationProxy :=
  match odc with
  | Some dc =>
      set_callbacks (set_running s (_running s ∖ {[dc]}))
        (<[id := (hd, None)]> (_callbacks s))
  | None => s
  end.

(** The reply path and the timeout path. *)
Definition reply_or_timeout (ev : loop_event) : Prop :=
  match ev with
  | on_request _ _ _ _ _ => False
  | on_recv _ | on_timeout _ => True
  end.

End zmqweb.

(** ** Further observations *)

(** The write callbacks called, in order. *)
Definition callback_calls (evs : list event) : list callback :=
  omap (λ e, match e with callback_call cb => Some cb | _ => None end) evs.

(** The callback a bulk request holds after the writes [ws], when it held
    [cb0] before: [write] overwrites it whenever it is given one. *)
Definition pending_callback (cb0 : option callback)
    (ws : list (frame * option callback)) : option callback :=
  foldl (λ acc w, match w.2 with Some cb => Some cb | None => acc end) cb0 ws.

Section observations.
Context `{E : Externals}.

(** No call made after the history [h] raises. *)
Definition quiet_after (h : list event) : Prop :=
  ∀ evs, raises (h ++ evs) = None.

(** The body of the [try] statement of [ZMQApplicationProxy._handle_reply],
    and the events of a forwarding that nothing interrupts. *)
Definition forward_replies (handler : handler) (replies : list frame)
  : M ZMQApplicationProxy unit :=
  for_each replies (λ reply,
    external (handler_call handler (RequestHandler.write reply))) ;;;
  emit (handler_setattr handler "_headers_written") ;;;
  emit (handler_setattr handler "_transforms") ;;;
  external (handler_call handler RequestHandler.finish).

Definition forwarding (hd : handler) (replies : list frame) : list event :=
  ((λ c, handler_call hd (RequestHandler.write c)) <$> replies)
    ++ [handler_setattr hd "_headers_written";
        handler_setattr hd "_transforms";
        handler_call hd RequestHandler.finish].

End observations.

Section invariants.
Context `{E : Externals}.

(** The registry, the timers and the ids minted so far agree: the timer
    kept in a pending entry is the one whose [_handle_timeout] was built
    for that entry's handler and id, a running timer is one that was
    created, and every pending id came from [uuid.uuid4]. *)
Definition consistent (s : ZMQApplicationProxy) : Prop :=
  (∀ id hd dc, _callbacks s !! id = Some (hd, Some dc) →
               delayed s !! dc = Some (hd, id)) ∧
  (∀ dc, dc ∈ _running s → dc < length (delayed s)) ∧
  (∀ id, id ∈ dom (_callbacks s) → ∃ k, k < uuid4_calls s ∧ uuid4 k = id).

(** From [s] to [s'] nothing was registered: entries were at most removed
    or disarmed, timers at most stopped. *)
Definition shrinks (s s' : ZMQApplicationProxy) : Prop :=
  proxy_cls s' = proxy_cls s ∧
  delayed s' = delayed s ∧
  uuid4_calls s' = uuid4_calls s ∧
  _running s' ⊆ _running s ∧
  dom (_callbacks s') ⊆ dom (_callbacks s) ∧
  (∀ id hd dc, _callbacks s' !! id = Some (hd, Some dc) →
               _callbacks s !! id = Some (hd, Some dc)).

(** The deliveries that send a frame list: the requests whose dictionary
    [jsonapi.dumps] serialises. *)
Definition sends_request (ev : loop_event) : bool :=
  match ev with
  | on_request request args kwargs _ _ =>
      match dumps (PDict (request_dict request args kwargs)) with
      | Ok _ => true
      | Raise _ => false
      end
  | _ => false
  end.

End invariants.

(** ** The front-end handler and the back-end dispatch *)

(** [ZMQRequestHandlerProxy]: its identity, [self.request] that Tornado's
    constructor sets, and [self.timeout]; [self.proxy] is the proxy its
    methods run on. *)
Record ZMQRequestHandlerProxy := {
  self_handler : handler;
  self_request : httpserver.HTTPRequest;
  self_timeout : Z;
}.

(** [ZMQRequestHandlerProxy.initialize(proxy, timeout=0)], with the
    constructor's [self.request = request]. *)
Definition initialize (hd : handler) (request : httpserver.HTTPRequest)
    (timeout : option Z) : ZMQRequestHandlerProxy :=
  {| self_handler := hd;
     self_request := request;
     self_timeout := default 0%Z timeout |}.

(** [ZMQRequestHandlerProxy.SUPPORTED_METHODS] *)
Definition SUPPORTED_METHODS : list string :=
  ["GET"; "HEAD"; "POST"; "DELETE"; "PUT"; "OPTIONS"].

(** The classes [except Exception] catches: all but the three that derive
    from [BaseException] directly. *)
Definition is_Exception (e : exn) : bool :=
  match e with
  | Exception_ c =>
      negb (bool_decide (c ∈ ["KeyboardInterrupt"; "SystemExit"; "GeneratorExit"]))
  | _ => true
  end.

(** [tornado.web.URLSpec], as [ZMQApplication.__call__] reads it:
    [regex_match path] says whether [spec.regex.match(path)] matches. *)
Record URLSpec := {
  regex_match : string → bool;
  handler_class : string;
  spec_kwargs : pyval;
}.

(** The handler [ZMQApplication.__call__] builds. *)
Inductive dispatched :=
| redirect_handler (url : string)
| spec_handler (spec : URLSpec)
| error_handler (status_code : Z).

(** [for spec in handlers: ... if match: ... break] *)
Fixpoint first_match (handlers : list URLSpec) (path : string) : option URLSpec :=
  match handlers with
  | [] => None
  | spec :: handlers' =>
      if regex_match spec path then Some spec else first_match handlers' path
  end.

(** The choice of the handler in [ZMQApplication.__call__]; [handlers] is
    what [self._get_host_handlers(request)] returned, [None] or a list. *)
Definition __call__handler (default_host : string)
    (handlers : option (list URLSpec)) (path : string) : dispatched :=
  match handlers with
  | None | Some [] => redirect_handler ("http://" +:+ default_host +:+ "/")
  | Some handlers =>
      match first_match handlers path with
      | Some spec => spec_handler spec
      | None => error_handler 404
      end
  end.

Section handler_proxy.
Context `{E : Externals}.

(** [ZMQRequestHandlerProxy._execute]. [prepare] is what the user's hook
    [self.prepare()] does: it raises, or it returns and leaves
    [self._finished] true or false. *)
Definition _execute (self : ZMQRequestHandlerProxy) (prepare : result bool)
    (args : list pyval) (kwargs : list (string * pyval))
  : M ZMQApplicationProxy unit :=
  emit (handler_setattr (self_handler self) "_transforms") ;;;
  try_except
    ((if bool_decide (httpserver.method (self_request self) ∈ SUPPORTED_METHODS)
      then ret tt
      else throw (Exception_ "HTTPError")) ;;;
     _finished <- lift prepare ;;
     if _finished then ret tt
     else
       _ <- send_request (self_request self) args kwargs
              (self_handler self) (self_timeout self) ;;
       ret tt)
    (λ e, if is_Exception e
          then emit (logging ERROR "Unexpected error in _execute")
          else throw e).

End handler_proxy.

(** ** Sample collaborators and objects *)

(** The request of the end-to-end scenario, [GET /widgets/7]. *)
Definition sample_request : httpserver.HTTPRequest :=
  {| httpserver.method := "GET";
     httpserver.uri := "/widgets/7";
     httpserver.version := "HTTP/1.1";
     httpserver.headers := [("Accept", PStr "*/*")];
     httpserver.body := "";
     httpserver.remote_ip := "127.0.0.1";
     httpserver.protocol := "http";
     httpserver.host := "localhost";
     httpserver.files := [];
     httpserver.arguments := [] |}.

Definition sample_json : frame := "json(GET /widgets/7)".

(** Collaborators that know one JSON text, that of [sample_request]; the
    ids are the decimal numerals, and [disconnected] says whether the
    client has gone, in which case the handler's [write] raises
    [socket.error]. *)
Definition sample_externals (disconnected : bool) : Externals :=
  {| uuid4 := λ k, pretty k;
     dumps := λ _, Ok sample_json;
     loads := λ f,
       if decide (f = sample_json)
       then Ok (PDict (request_dict sample_request [] []))
       else Raise ValueError;
     native_str := λ v,
       match v with
       | PStr u => Ok u
       | _ => Raise (Exception_ "AssertionError")
       end;
     urlsplit := λ u, Ok (u, "");
     raises := λ h,
       match last h with
       | Some (handler_call _ (RequestHandler.write _)) =>
           if disconnected then Some socket_error else None
       | _ => None
       end |}.

Definition sample_application : ZMQApplication :=
  {| settings_http_request_class := None |}.

(** What the back end decodes from [sample_request] behind the identity
    frame [peer-1]. *)
Definition sample_decoded : ZMQHTTPRequest :=
  {| cls := Bulk;
     method := PStr "GET";
     uri := PStr "/widgets/7";
     version := PStr "HTTP/1.1";
     headers := PDict [("Accept", PStr "*/*")];
     body := "";
     remote_ip := PStr "127.0.0.1";
     protocol := PStr "http";
     host := PStr "localhost";
     files := PDict [];
     idents := ["peer-1"];
     msg_id := "0";
     _chunks := [];
     _write_callback := None;
     path := "/widgets/7";
     query := "";
     arguments := PDict [] |}.

(** A proxy of class [c] with one pending request, id [0], handler [7],
    timer [0] running. *)
Definition sample_proxy (c : delivery) : ZMQApplicationProxy :=
  {| proxy_cls := c;
     _callbacks := {[ "0" := (7, Some 0) ]};
     delayed := [(7, "0")];
     _running := {[ 0 ]};
     uuid4_calls := 1 |}.

(** ** Further sample objects *)

(** [sample_decoded] as the streaming class decodes it. *)
Definition sample_streaming : ZMQHTTPRequest :=
  {| cls := Streaming;
     method := method sample_decoded; uri := uri sample_decoded;
     version := version sample_decoded; headers := headers sample_decoded;
     body := body sample_decoded; remote_ip := remote_ip sample_decoded;
     protocol := protocol sample_decoded; host := host sample_decoded;
     files := files sample_decoded;
     idents := idents sample_decoded; msg_id := msg_id sample_decoded;
     _chunks := []; _write_callback := None;
     path := path sample_decoded; query := query sample_decoded;
     arguments := arguments sample_decoded |}.

(** [sample_decoded] after two writes. *)
Definition sample_buffered : ZMQHTTPRequest :=
  set_chunks sample_decoded ["HTTP/1.1 200 OK"; "seven"].

(** [sample_request] with a method that is not supported. *)
Definition sample_patch_request : httpserver.HTTPRequest :=
  {| httpserver.method := "PATCH";
     httpserver.uri := httpserver.uri sample_request;
     httpserver.version := httpserver.version sample_request;
     httpserver.headers := httpserver.headers sample_request;
     httpserver.body := httpserver.body sample_request;
     httpserver.remote_ip := httpserver.remote_ip sample_request;
     httpserver.protocol := httpserver.protocol sample_request;
     httpserver.host := httpserver.host sample_request;
     httpserver.files := httpserver.files sample_request;
     httpserver.arguments := httpserver.arguments sample_request |}.

(** The collaborators of [sample_externals], with handlers whose connection
    is closed: every call on a handler raises [IOError]. *)
Definition closed_externals : Externals :=
  {| uuid4 := @uuid4 (sample_externals false);
     dumps := @dumps (sample_externals false);
     loads := @loads (sample_externals false);
     native_str := @native_str (sample_externals false);
     urlsplit := @urlsplit (sample_externals false);
     raises := λ h,
       match last h with
       | Some (handler_call _ _) => Some (Exception_ "IOError")
       | _ => None
       end |}.

(** The collaborators of [sample_externals], with a JSON encoder that
    rejects every request dictionary, as it does one that holds the raw
    bytes of an uploaded file. *)
Definition unserialisable_externals : Externals :=
  {| uuid4 := @uuid4 (sample_externals false);
     dumps := λ _, Raise TypeError;
     loads := @loads (sample_externals false);
     native_str := @native_str (sample_externals false);
     urlsplit := @urlsplit (sample_externals false);
     raises := @raises (sample_externals false) |}.

(** A bulk proxy with two pending requests: ids [0] and [1], handlers [7]
    and [8], timers [0] and [1] running. *)
Definition sample_two_pending : ZMQApplicationProxy :=
  (@run (sample_externals false)
     [on_request sample_request [] [] 7 5000;
      on_request sample_request [] [] 8 5000] []
     (ZMQApplicationProxy__init__ Bulk)).1.

(** Two URL specs, for [/widgets/...] and for everything. *)
Definition sample_specs : list URLSpec :=
  [ {| regex_match := String.prefix "/widgets/";
       handler_class := "WidgetHandler"; spec_kwargs := PDict [] |};
    {| regex_match := λ _, true;
       handler_class := "CatchAllHandler"; spec_kwargs := PDict [] |} ].

(** ** Properties *)

(** Unfolding of the monad's operations, and nothing else. *)
Ltac mstep :=
  unfold bind, try_except, ret, throw, lift, emit, get_self, set_self;
  cbn [result_of self_of history_of].

(** Bringing a history to the form [h ++ e1 :: e2 :: ...]. *)
Ltac flatten_history :=
  repeat (rewrite <- app_assoc || rewrite <- app_comm_cons).

Section properties.
Context `{E : Externals}.

(** *** Python lists *)

Lemma list_index_absent (l : list frame) (x : frame) :
  x ∉ l → list_index l x = Raise ValueError.
Proof.
  induction l as [|y l IH]; intros Hx; [done|].
  apply not_elem_of_cons in Hx as [Hne Hl]. simpl.
  destruct (decide (y = x)) as [->|_]; [done|].
  by rewrite IH.
Qed.

Lemma list_index_app (P : list frame) (x : frame) (rest : list frame) :
  x ∉ P → list_index (P ++ x :: rest) x = Ok (length P).
Proof.
  induction P as [|y P IH]; intros Hx; simpl.
  - by destruct (decide (x = x)).
  - apply not_elem_of_cons in Hx as [Hne Hl].
    destruct (decide (y = x)) as [->|_]; [done|].
    by rewrite IH.
Qed.

Lemma list_index_Ok (l : list frame) (x : frame) (i : nat) :
  list_index l x = Ok i →
  ∃ rest, l = take i l ++ x :: rest ∧ (x ∉ take i l) ∧ length (take i l) = i.
Proof.
  revert i. induction l as [|y l IH]; intros i; simpl; [done|].
  destruct (decide (y = x)) as [->|Hne].
  - intros [= <-]. exists l. split_and!; [done|apply not_elem_of_nil|done].
  - destruct (list_index l x) as [n|] eqn:Hn; simpl; [|done].
    intros [= <-]. destruct (IH n eq_refl) as (rest & Hl & Hnot & Hlen).
    exists rest. simpl. split_and!.
    + by rewrite <- Hl.
    + apply not_elem_of_cons. split; [done|exact Hnot].
    + by rewrite Hlen.
Qed.

Lemma getitem_app_r (P l : list frame) (k : nat) :
  getitem (P ++ l) (length P + k) = getitem l k.
Proof.
  unfold getitem. rewrite lookup_app_r by lia.
  by replace (length P + k - length P) with k by lia.
Qed.

Lemma sent_app (h evs : list event) : sent (h ++ evs) = sent h ++ sent evs.
Proof.
  induction h as [|e h IH]; [done|].
  destruct e; simpl; by rewrite ?IH.
Qed.

(** *** The monad *)

Lemma bind_external {S A} (e : event) (k : unit → M S A) h s :
  bind (external e) k h s =
    match raises (h ++ [e]) with
    | Some x => Outcome (Raise x) s (h ++ [e])
    | None => k tt (h ++ [e]) s
    end.
Proof. unfold bind, external. by destruct (raises _). Qed.

(** *** The back-end receive callback *)

(** A frame list of fewer than four frames is logged and dropped: nothing is
    dispatched, nothing is sent, nothing escapes. *)
Lemma _handle_request_short (msg_list : list frame) h (s : ZMQApplication) :
  length msg_list < 4 →
  _handle_request msg_list h s =
    Outcome (Ok tt) s
      (h ++ [ logging DEBUG "Handling request: %r";
              logging ERROR
                "Unexpected request message format in ZMQApplication._handle_request." ]).
Proof.
  intros Hlen. apply Nat.ltb_lt in Hlen.
  unfold _handle_request, _parse_request. mstep. rewrite Hlen. mstep.
  by rewrite <- app_assoc.
Qed.

(** C1. A frame list of four frames or more without the delimiter frame is
    not reported as malformed: [list.index] raises [ValueError], the
    [except IndexError] clause of the receive callback does not catch it,
    and it escapes the callback with nothing logged at error level. *)
Theorem handle_request_no_delimiter_escapes (msg_list : list frame) h
    (s : ZMQApplication) :
  4 ≤ length msg_list →
  "|" ∉ msg_list →
  _handle_request msg_list h s =
    Outcome (Raise ValueError) s (h ++ [ logging DEBUG "Handling request: %r" ]).
Proof.
  intros Hlen Habs. apply Nat.ltb_ge in Hlen.
  unfold _handle_request, _parse_request. mstep. rewrite Hlen. mstep.
  rewrite (list_index_absent _ _ Habs). reflexivity.
Qed.

(** *** Replies of the back-end request classes *)

(** A frame list that [_parse_request] accepts has a first delimiter frame;
    the frames before it become [idents], the frame after it [msg_id]. *)
Lemma _parse_request_Ok msg_list h s request args kwargs :
  result_of (_parse_request msg_list h s) = Ok (request, args, kwargs) →
  ∃ i, list_index msg_list "|" = Ok i ∧
       getitem msg_list (i + 1) = Ok (msg_id request) ∧
       idents request = take i msg_list.
Proof.
  unfold _parse_request.
  destruct (length msg_list <? 4) eqn:Hlen; [done|].
  mstep.
  destruct (list_index msg_list "|") as [i|] eqn:Hi; [|done].
  destruct (getitem msg_list (i + 1)) as [I|] eqn:HI; [|done].
  destruct (result_bind (getitem msg_list (i + 2)) loads) as [req|]; [|done].
  destruct (length msg_list =? i + 4).
  1: destruct (getitem msg_list (i + 3)) as [body|]; [|done].
  all: repeat (match goal with
       | |- result_of (match ?r with Ok _ => _ | Raise _ => _ end) = _ → _ =>
           destruct r eqn:?; [|done]
       end).
  all: intros [= <- <- <-]; exists i; split_and!; try done.
  all: unfold ZMQHTTPRequest__init__ in *.
  all: destruct (native_str _); simplify_eq/=.
  all: destruct (urlsplit _); by simplify_eq/=.
Qed.

(** One call on a request returns, keeps [idents] and [msg_id], and every
    frame list it sends begins with them. *)
Lemma perform_identity (c : request_call) h (r : ZMQHTTPRequest) :
  let o := perform c h r in
  result_of o = Ok tt ∧
  idents (self_of o) = idents r ∧ msg_id (self_of o) = msg_id r ∧
  ∃ evs, history_of o = h ++ evs ∧
         Forall (begins_with (idents r) (msg_id r)) (sent evs).
Proof.
  destruct c as [chunk [cb|]|]; unfold perform, write, finish; mstep;
    destruct (cls r); unfold ZMQHTTPRequest_write, ZMQHTTPRequest_finish,
      ZMQStreamingHTTPRequest_write, ZMQStreamingHTTPRequest_finish,
      _create_msg_list, external; mstep;
    cbn [set_chunks set_write_callback _write_callback];
    repeat match goal with
      | |- context [raises ?x] => destruct (raises x); mstep
      | |- context [_write_callback r] => destruct (_write_callback r); mstep
      end.
  all: split_and!; [done|done|done|]; eexists; (split; [by rewrite <- ?app_assoc|]).
  all: simpl; repeat (apply Forall_cons; split;
         [eexists; by rewrite <- ?app_assoc|]); by apply Forall_nil.
Qed.

(** C6. When the back end decodes an inbound frame list, the list is
    [P ++ "|" :: I :: rest] with no delimiter frame in [P], the request gets
    the identity prefix [P] and the correlation id [I], and whatever
    sequence of writes and finishes is performed on the request (bulk or
    streaming), every frame list it sends begins with exactly the frames of
    [P], followed immediately by [I]. *)
Theorem replies_begin_with_idents_and_msg_id msg_list h s request args kwargs
    (calls : list request_call) h' :
  result_of (_parse_request msg_list h s) = Ok (request, args, kwargs) →
  ∃ P I rest,
    msg_list = P ++ "|" :: I :: rest ∧ ("|" ∉ P) ∧
    idents request = P ∧ msg_id request = I ∧
    ∃ evs, history_of (for_each calls perform h' request) = h' ++ evs ∧
           Forall (begins_with P I) (sent evs).
Proof.
  intros Hp. apply _parse_request_Ok in Hp as (i & Hi & HI & Hid).
  destruct (list_index_Ok _ _ _ Hi) as (rest & Hl & Hnot & Hlen).
  assert (∃ rest', rest = msg_id request :: rest') as [rest' ->].
  { unfold getitem in HI. rewrite Hl in HI.
    rewrite lookup_app_r in HI by lia. rewrite Hlen in HI.
    replace (i + 1 - i) with 1 in HI by lia.
    destruct rest as [|I' rest']; simplify_eq/=. eauto. }
  exists (take i msg_list), (msg_id request), rest'.
  split_and!; [done|done|done|done|].
  rewrite <- Hid. clear. revert h' request.
  induction calls as [|c calls IH]; intros h' r; simpl.
  - exists []. by rewrite app_nil_r.
  - destruct (perform_identity c h' r) as (Hres & Hi & Hm & evs & Hh & Hall).
    unfold bind. destruct (perform c h' r) as [[[]|e] r' h'']; simplify_eq/=.
    destruct (IH (h' ++ evs) r') as (evs' & Hh' & Hall').
    exists (evs ++ evs'). rewrite Hh', app_assoc. split; [done|].
    rewrite sent_app. apply Forall_app. split; [done|].
    by rewrite <- Hi, <- Hm.
Qed.

(** *** Encoding on the front end, decoding on the back end *)

Lemma subscript_request_dict request args kwargs :
  let req := PDict (request_dict request args kwargs) in
  subscript req "method" = Ok (PStr (httpserver.method request)) ∧
  subscript req "uri" = Ok (PStr (httpserver.uri request)) ∧
  subscript req "version" = Ok (PStr (httpserver.version request)) ∧
  subscript req "headers" = Ok (PDict (httpserver.headers request)) ∧
  subscript req "remote_ip" = Ok (PStr (httpserver.remote_ip request)) ∧
  subscript req "protocol" = Ok (PStr (httpserver.protocol request)) ∧
  subscript req "host" = Ok (PStr (httpserver.host request)) ∧
  subscript req "files" = Ok (PDict (httpserver.files request)) ∧
  subscript req "arguments" = Ok (PDict (httpserver.arguments request)) ∧
  subscript req "args" = Ok (PList args) ∧
  subscript req "kwargs" = Ok (PDict kwargs).
Proof. repeat split; reflexivity. Qed.

Lemma py_or_dict (d : list (string * pyval)) : py_or (PDict d) (PDict []) = PDict d.
Proof. by destruct d. Qed.

(** When [jsonapi.dumps] returns, [send_request] returns the id it minted
    and sends one frame list. *)
Lemma send_request_sends request args kwargs handler timeout h proxy json :
  dumps (PDict (request_dict request args kwargs)) = Ok json →
  let o := send_request request args kwargs handler timeout h proxy in
  let id := uuid4 (uuid4_calls proxy) in
  result_of o = Ok id ∧
  ∃ evs, history_of o = h ++ evs ∧ sent evs = [encoded id json request].
Proof.
  intros Hjson.
  unfold send_request, uuid4_bytes, callbacks_setitem, DelayedCallback,
    DelayedCallback_start, encoded.
  destruct (0 <? timeout)%Z; mstep; rewrite Hjson;
    cbn [result_of self_of history_of];
    (split; [done|]); eexists; (split; [by rewrite <- ?app_assoc|]);
    simpl; by destruct (String.eqb _ _).
Qed.

(** When [jsonapi.dumps] raises, its exception escapes [send_request]
    after the id was minted and before anything is logged, sent or
    registered. *)
Lemma send_request_raises request args kwargs handler timeout h proxy e :
  dumps (PDict (request_dict request args kwargs)) = Raise e →
  let o := send_request request args kwargs handler timeout h proxy in
  result_of o = Raise e ∧
  history_of o = h ∧
  proxy_cls (self_of o) = proxy_cls proxy ∧
  _callbacks (self_of o) = _callbacks proxy ∧
  delayed (self_of o) = delayed proxy ∧
  _running (self_of o) = _running proxy ∧
  uuid4_calls (self_of o) = S (uuid4_calls proxy).
Proof.
  intros Hjson. unfold send_request, uuid4_bytes. mstep. by rewrite Hjson.
Qed.

(** Decoding what was encoded, behind the identity frames [P]. *)
Lemma _parse_request_encoded (P : list frame) id json request args kwargs h app :
  let req := PDict (request_dict request args kwargs) in
  ("|" ∉ P) →
  P ≠ [] ∨ httpserver.body request ≠ "" →
  loads json = Ok req →
  (∃ pq, result_bind (native_str (PStr (httpserver.uri request))) urlsplit = Ok pq) →
  ∃ r, _parse_request (P ++ encoded id json request) h app
         = Outcome (Ok (r, PList args, PDict kwargs)) app h ∧
       reproduces request r ∧
       body r = httpserver.body request ∧
       idents r = P ∧ msg_id r = id ∧
       cls r = default Bulk (settings_http_request_class app).
Proof.
  intros req HP Hlen Hcodec [pq Hpq].
  destruct (subscript_request_dict request args kwargs)
    as (Hm & Hu & Hv & Hh & Hr & Hp & Hho & Hf & Ha & Hargs & Hkw).
  fold req in Hm, Hu, Hv, Hh, Hr, Hp, Hho, Hf, Ha, Hargs, Hkw.
  unfold _parse_request.
  assert ((length (P ++ encoded id json request) <? 4) = false) as ->.
  { apply Nat.ltb_ge. rewrite length_app. unfold encoded.
    destruct Hlen as [HPne|Hb].
    - destruct P; [done|]. simpl. lia.
    - destruct (String.eqb_spec (httpserver.body request) ""); [done|].
      simpl. lia. }
  mstep. unfold encoded at 1. rewrite (list_index_app _ _ _ HP).
  cbn beta iota. rewrite !getitem_app_r.
  unfold encoded at 1 2. cbn [getitem lookup list_lookup result_bind].
  rewrite Hcodec.
  assert ((length (P ++ encoded id json request) =? length P + 4)
          = negb (String.eqb (httpserver.body request) "")) as ->.
  { rewrite length_app. unfold encoded.
    destruct (String.eqb _ _); simpl; [apply Nat.eqb_neq | apply Nat.eqb_eq]; lia. }
  rewrite Hm, Hu, Hv, Hh, Hr, Hp, Hho, Hf, Ha, Hargs, Hkw.
  rewrite take_app_length.
  assert (Hinit : ∀ c b, ∃ r,
    ZMQHTTPRequest__init__ c
      (PStr (httpserver.method request)) (PStr (httpserver.uri request))
      (PStr (httpserver.version request)) (PDict (httpserver.headers request)) b
      (PStr (httpserver.remote_ip request)) (PStr (httpserver.protocol request))
      (PStr (httpserver.host request)) (PDict (httpserver.files request))
      (PDict (httpserver.arguments request)) P id = Ok r ∧
    reproduces request r ∧ body r = b ∧ idents r = P ∧ msg_id r = id ∧ cls r = c).
  { intros c b. unfold ZMQHTTPRequest__init__.
    revert Hpq. destruct (native_str (PStr (httpserver.uri request))) as [u|]; [|done].
    cbn [result_bind]. intros ->. rewrite !py_or_dict.
    eexists. split; [reflexivity|]. repeat split.
    cbn [body]. by destruct (String.eqb_spec b ""). }
  destruct (String.eqb_spec (httpserver.body request) "") as [Hb|Hb]; cbn [negb].
  - destruct (Hinit (default Bulk (settings_http_request_class app)) "")
      as (r & -> & Hr1 & Hr2 & Hr3); exists r. by rewrite Hb.
  - unfold encoded.
    destruct (String.eqb_spec (httpserver.body request) ""); [done|].
    cbn [getitem lookup list_lookup].
    destruct (Hinit (default Bulk (settings_http_request_class app))
                (httpserver.body request))
      as (r & -> & Hr1 & Hr2 & Hr3); by exists r.
Qed.

(** C5 (amended). The frame list [send_request] sends is [|], the id, the
    JSON text, and the body frame exactly when the body is not empty. When
    the back end decodes it behind identity frames [P] that hold no
    delimiter frame, [P] not empty or the body not empty, it gets back
    method, uri, version, headers, remote_ip, protocol, host, files,
    arguments, args and kwargs (and the body, [P] and the id), provided
    [jsonapi.loads] inverts [jsonapi.dumps] on the request dictionary and
    [urlsplit] accepts the uri. *)
Theorem send_request_then_parse_request request args kwargs hd timeout h proxy
    (P : list frame) h' app :
  let req := PDict (request_dict request args kwargs) in
  let o := send_request request args kwargs hd timeout h proxy in
  ("|" ∉ P) →
  P ≠ [] ∨ httpserver.body request ≠ "" →
  result_bind (dumps req) loads = Ok req →
  (∃ pq, result_bind (native_str (PStr (httpserver.uri request))) urlsplit = Ok pq) →
  ∃ id json evs msg_list,
    dumps req = Ok json ∧
    result_of o = Ok id ∧ history_of o = h ++ evs ∧ sent evs = [msg_list] ∧
    take 3 msg_list = ["|"; id; json] ∧
    (drop 3 msg_list = [httpserver.body request] ∧ httpserver.body request ≠ "" ∨
     drop 3 msg_list = [] ∧ httpserver.body request = "") ∧
    ∃ r, result_of (_parse_request (P ++ msg_list) h' app)
           = Ok (r, PList args, PDict kwargs) ∧
         reproduces request r ∧
         body r = httpserver.body request ∧ idents r = P ∧ msg_id r = id.
Proof.
  intros req o HP Hlen Hcodec Hurl.
  destruct (dumps req) as [json|] eqn:Hjson; [|done]. cbn [result_bind] in Hcodec.
  destruct (send_request_sends request args kwargs hd timeout h proxy json Hjson)
    as (Hres & evs & Hh & Hsent).
  destruct (_parse_request_encoded P (uuid4 (uuid4_calls proxy)) json request args kwargs
              h' app HP Hlen Hcodec Hurl) as (r & Hr & Hrep & Hb & Hi & Hm & _).
  exists (uuid4 (uuid4_calls proxy)), json, evs,
    (encoded (uuid4 (uuid4_calls proxy)) json request).
  split_and!; [done|done|done|done|done| |].
  - unfold encoded. destruct (String.eqb_spec (httpserver.body request) ""); auto.
  - exists r. by rewrite Hr.
Qed.

(** *** Replies the front end drops *)

(** A reply of fewer than two frames: an error is logged, that is all. *)
Lemma _handle_reply_short msg_list h s :
  length msg_list < 2 →
  ∃ msg, _handle_reply msg_list h s =
    Outcome (Ok tt) s (h ++ [logging DEBUG "Handling reply: %r"; logging ERROR msg]).
Proof.
  intros Hlen. apply Nat.ltb_lt in Hlen.
  unfold _handle_reply, ZMQApplicationProxy_handle_reply,
    ZMQStreamingApplicationProxy_handle_reply.
  mstep. destruct (proxy_cls s); rewrite Hlen; eexists; by rewrite <- app_assoc.
Qed.

(** A reply for an id that is not pending: the debug line, that is all. *)
Lemma _handle_reply_unknown id rest h s :
  rest ≠ [] →
  _callbacks s !! id = None →
  _handle_reply (id :: rest) h s =
    Outcome (Ok tt) s (h ++ [logging DEBUG "Handling reply: %r"]).
Proof.
  intros Hrest Hid. destruct rest as [|tag rest]; [done|].
  unfold _handle_reply, ZMQApplicationProxy_handle_reply,
    ZMQStreamingApplicationProxy_handle_reply, callbacks_pop_default, callbacks_get.
  mstep. destruct (proxy_cls s); cbn [length Nat.ltb Nat.leb getitem lookup list_lookup];
    by rewrite Hid.
Qed.

(** C9. A reply of fewer than two frames, or whose first frame is no pending
    correlation id, is dropped by a proxy of either class: the callback
    returns, the proxy (its registry included) is unchanged, and nothing but
    logging happens, so no handler method is called. *)
Theorem reply_dropped msg_list h s :
  length msg_list < 2 ∨ (∃ id, head msg_list = Some id ∧ _callbacks s !! id = None) →
  let o := _handle_reply msg_list h s in
  result_of o = Ok tt ∧ self_of o = s ∧
  ∃ evs, history_of o = h ++ evs ∧ Forall is_logging evs.
Proof.
  intros Hdrop.
  destruct (decide (length msg_list < 2)) as [Hlen|Hlen].
  - destruct (_handle_reply_short msg_list h s Hlen) as [msg ->]. cbn.
    split_and!; [done|done|]. eexists. split; [done|]. by repeat constructor.
  - destruct Hdrop as [?|(id & Hhd & Hid)]; [done|].
    destruct msg_list as [|id' rest]; simplify_eq/=.
    rewrite _handle_reply_unknown; [|by destruct rest; simpl in *; [lia|]|done].
    cbn. split_and!; [done|done|]. eexists. split; [done|]. by repeat constructor.
Qed.

(** *** The bulk proxy *)

(** Forwarding the chunks leaves the proxy alone. *)
Lemma for_each_write_calls (hd : handler) (replies : list frame) h
    (s : ZMQApplicationProxy) :
  let o := for_each replies (λ reply,
             external (handler_call hd (RequestHandler.write reply))) h s in
  self_of o = s ∧ ∃ evs, history_of o = h ++ evs.
Proof.
  revert h. induction replies as [|reply replies IH]; intros h; simpl.
  - split; [done|]. exists []. by rewrite app_nil_r.
  - rewrite bind_external. destruct (raises _); cbn.
    + split; [done|]. by eexists.
    + destruct (IH (h ++ [handler_call hd (RequestHandler.write reply)]))
        as (Hs & evs & Hh).
      split; [done|]. rewrite Hh, <- app_assoc. by eexists.
Qed.

(** A reply for a pending request: the entry is popped and its timer
    stopped, then the chunks are forwarded inside [try]. *)
Lemma bulk_reply_known id rest h s hd odc :
  proxy_cls s = Bulk →
  rest ≠ [] →
  _callbacks s !! id = Some (hd, odc) →
  let o := _handle_reply (id :: rest) h s in
  result_of o = Ok tt ∧
  _callbacks (self_of o) = delete id (_callbacks s) ∧
  (∀ dc, odc = Some dc → dc ∉ _running (self_of o)) ∧
  (∃ evs, history_of o =
            h ++ logging DEBUG "Handling reply: %r" :: stopped odc ++ evs).
Proof.
  intros Hcls Hrest Hid.
  destruct rest as [|tag rest]; [done|].
  unfold _handle_reply, ZMQApplicationProxy_handle_reply, callbacks_pop_default,
    DelayedCallback_stop.
  mstep. rewrite Hcls. cbn [length Nat.ltb Nat.leb getitem lookup list_lookup].
  rewrite Hid.
  destruct odc as [dc|]; cbn [set_running set_callbacks _callbacks _running stopped].
  all: match goal with
       | |- context [for_each ?l ?f ?h' ?s'] =>
           destruct (for_each_write_calls hd l h' s') as (Hs & evs & Hh);
           destruct (for_each l f h' s') as [[[]|e] s1 h1]
       end; simplify_eq/=.
  all: unfold external; repeat match goal with
       | |- context [raises ?x] => destruct (raises x)
       end; cbn.
  all: split_and!; [done|done| |flatten_history; by eexists].
  all: intros dc' [= <-] || intros dc' [=].
  all: apply not_elem_of_difference; right; by apply elem_of_singleton.
Qed.

(** C10. In the bulk proxy a reply of two frames or more for a pending
    request returns whatever the handler's write and finish do; the entry
    is removed and its timer stopped, the [dc.stop()] coming in the history
    before everything the forwarding emits. So a second delivery of the
    reply is dropped, the timer does nothing when it comes due, and a pop
    of the id raises [KeyError]. *)
Theorem bulk_reply_removes_entry_first id rest h s hd odc :
  proxy_cls s = Bulk →
  rest ≠ [] →
  _callbacks s !! id = Some (hd, odc) →
  let o := _handle_reply (id :: rest) h s in
  result_of o = Ok tt ∧
  _callbacks (self_of o) = delete id (_callbacks s) ∧
  (∀ dc, odc = Some dc → dc ∉ _running (self_of o)) ∧
  (∃ evs, history_of o =
            h ++ logging DEBUG "Handling reply: %r" :: stopped odc ++ evs) ∧
  (∀ h2, _handle_reply (id :: rest) h2 (self_of o) =
           Outcome (Ok tt) (self_of o) (h2 ++ [logging DEBUG "Handling reply: %r"])) ∧
  (∀ dc h2, odc = Some dc →
     DelayedCallback_run dc h2 (self_of o) = Outcome (Ok tt) (self_of o) h2) ∧
  (∀ h2, result_of (callbacks_pop id h2 (self_of o)) = Raise KeyError).
Proof.
  intros Hcls Hrest Hid.
  destruct (bulk_reply_known id rest h s hd odc Hcls Hrest Hid)
    as (Hres & Hcb & Hrun & Hhist).
  cbv zeta. split_and!; try done.
  - intros h2. apply _handle_reply_unknown; [done|].
    rewrite Hcb. apply lookup_delete_eq.
  - intros dc h2 Hdc. unfold DelayedCallback_run. mstep.
    destruct (decide _) as [Hin|]; [|done]. by destruct (Hrun dc Hdc).
  - intros h2. unfold callbacks_pop. mstep.
    by rewrite Hcb, lookup_delete_eq.
Qed.

(** *** The streaming proxy *)

(** The module never imports [socket]. *)
Lemma socket_not_imported : "socket" ∉ module_globals.
Proof. apply (bool_decide_unpack _). by vm_compute. Qed.

(** So an exception that reaches [except socket.error] is replaced by the
    [NameError] of evaluating the clause, whatever the exception was. *)
Lemma except_socket_error_escapes {S} (e : exn) (otherwise : M S unit) h s :
  except_socket_error e otherwise h s = Outcome (Raise NameError) s h.
Proof.
  unfold except_socket_error, load_global.
  destruct (decide _) as [Hin|_]; [by destruct socket_not_imported|done].
Qed.

(** A [DATA] reply of three frames for a pending request. *)
Lemma streaming_DATA id chunk h s hd odc :
  proxy_cls s = Streaming →
  _callbacks s !! id = Some (hd, odc) →
  let s1 := disarmed id hd odc s in
  let h1 := h ++ logging DEBUG "Handling reply: %r" :: stopped odc
              ++ [handler_call hd (RequestHandler.write chunk)] in
  let h2 := h1 ++ [handler_setattr hd "_headers_written";
                   handler_setattr hd "_transforms";
                   handler_call hd RequestHandler.flush] in
  _handle_reply [id; "DATA"; chunk] h s =
    match raises h1 with
    | Some _ => Outcome (Raise NameError) s1 h1
    | None =>
        match raises h2 with
        | Some _ => Outcome (Raise NameError) s1 h2
        | None => Outcome (Ok tt) s1 h2
        end
    end.
Proof.
  intros Hcls Hid.
  unfold _handle_reply, ZMQStreamingApplicationProxy_handle_reply, callbacks_get,
    callbacks_setitem, DelayedCallback_stop.
  mstep. rewrite Hcls. cbn [length Nat.ltb Nat.leb getitem lookup list_lookup].
  rewrite Hid. cbn [bool_decide decide_rel andb Nat.eqb].
  rewrite bool_decide_eq_true_2 by done. cbn [andb].
  destruct odc as [dc|]; cbn [stopped disarmed app set_running set_callbacks
    _callbacks _running proxy_cls]; unfold external; cbn [result_of self_of history_of];
    rewrite <- !app_assoc; cbn [app].
  all: destruct (raises _); [by rewrite except_socket_error_escapes|].
  all: destruct (raises _); [by rewrite except_socket_error_escapes|done].
Qed.

(** A [FINISH] reply for a pending request, of any length. *)
Lemma streaming_FINISH id rest h s hd odc :
  proxy_cls s = Streaming →
  _callbacks s !! id = Some (hd, odc) →
  let s1 := set_callbacks s (delete id (_callbacks s)) in
  let h1 := h ++ [logging DEBUG "Handling reply: %r";
                  handler_call hd RequestHandler.finish] in
  _handle_reply (id :: "FINISH" :: rest) h s =
    Outcome (match raises h1 with Some _ => Raise NameError | None => Ok tt end) s1 h1.
Proof.
  intros Hcls Hid.
  unfold _handle_reply, ZMQStreamingApplicationProxy_handle_reply, callbacks_get,
    callbacks_pop.
  mstep. rewrite Hcls. cbn [length Nat.ltb Nat.leb getitem lookup list_lookup].
  rewrite Hid. rewrite bool_decide_eq_false_2 by done. cbn [andb].
  rewrite bool_decide_eq_true_2 by done. rewrite Hid.
  unfold external; cbn [result_of self_of history_of].
  rewrite <- !app_assoc; cbn [app].
  destruct (raises _); [by rewrite except_socket_error_escapes|done].
Qed.

(** Any other reply for a pending request. *)
Lemma streaming_other id tag rest h s hd odc :
  proxy_cls s = Streaming →
  _callbacks s !! id = Some (hd, odc) →
  tag ≠ "FINISH" →
  ¬ (tag = "DATA" ∧ length rest = 1) →
  _handle_reply (id :: tag :: rest) h s =
    Outcome (Ok tt) s (h ++ [logging DEBUG "Handling reply: %r"]).
Proof.
  intros Hcls Hid Hfin Hdata.
  unfold _handle_reply, ZMQStreamingApplicationProxy_handle_reply, callbacks_get.
  mstep. rewrite Hcls. cbn [length Nat.ltb Nat.leb getitem lookup list_lookup].
  rewrite Hid.
  assert (bool_decide (tag = "DATA") && (S (S (length rest)) =? 3) = false) as ->.
  { apply andb_false_iff. destruct (decide (tag = "DATA")) as [->|Hne].
    - right. apply Nat.eqb_neq. intros Hlen. apply Hdata. split; [done|lia].
    - left. by apply bool_decide_eq_false_2. }
  by rewrite bool_decide_eq_false_2 by done.
Qed.


(** C4. In the streaming proxy an exception raised by the handler's write
    while a [DATA] chunk is forwarded, [socket.error] included, is not
    swallowed: [NameError] escapes the receive callback. *)
Theorem streaming_handler_exception_escapes id chunk h s hd odc e :
  proxy_cls s = Streaming →
  _callbacks s !! id = Some (hd, odc) →
  raises (h ++ logging DEBUG "Handling reply: %r" :: stopped odc
            ++ [handler_call hd (RequestHandler.write chunk)]) = Some e →
  result_of (_handle_reply [id; "DATA"; chunk] h s) = Raise NameError.
Proof.
  intros Hcls Hid He. rewrite (streaming_DATA _ _ _ _ _ _ Hcls Hid).
  cbv zeta. by rewrite He.
Qed.

(** *** Streaming: chunks, then [FINISH] *)

Lemma forwarded_app hd evs evs' :
  forwarded hd (evs ++ evs') = forwarded hd evs ++ forwarded hd evs'.
Proof. unfold forwarded, calls_of. by rewrite omap_app, filter_app. Qed.

Lemma forwarded_cons_other hd e evs :
  (∀ m, e ≠ handler_call hd m) → forwarded hd (e :: evs) = forwarded hd evs.
Proof.
  intros He. unfold forwarded, calls_of. cbn [omap list_omap].
  destruct e as [| |hd' m| | | | |]; try done.
  destruct (decide (hd' = hd)) as [->|]; [by destruct (He m)|done].
Qed.

Lemma forwarded_stopped hd odc evs :
  forwarded hd (stopped odc ++ evs) = forwarded hd evs.
Proof. destruct odc; [|done]. by apply forwarded_cons_other. Qed.

Lemma forwarded_cons_call hd m evs :
  m ≠ RequestHandler.flush →
  forwarded hd (handler_call hd m :: evs) = m :: forwarded hd evs.
Proof.
  intros Hm. unfold forwarded, calls_of. cbn [omap list_omap].
  destruct (decide (hd = hd)); [|done]. by rewrite filter_cons_True.
Qed.

Lemma forwarded_cons_flush hd hd' evs :
  forwarded hd (handler_call hd' RequestHandler.flush :: evs) = forwarded hd evs.
Proof.
  unfold forwarded, calls_of. cbn [omap list_omap].
  destruct (decide (hd' = hd)); [|done]. by rewrite filter_cons_False by naive_solver.
Qed.

(** One well-formed [DATA] reply for a pending request. *)
Lemma streaming_DATA_forwards id chunk h s hd odc :
  proxy_cls s = Streaming →
  _callbacks s !! id = Some (hd, odc) →
  let o := _handle_reply [id; "DATA"; chunk] h s in
  self_of o = disarmed id hd odc s ∧
  ∃ evs, history_of o = h ++ evs ∧
         forwarded hd evs = [RequestHandler.write chunk] ∧
         ∀ dc, odc = Some dc → dc_stop dc ∈ evs.
Proof.
  intros Hcls Hid. cbv zeta. rewrite (streaming_DATA _ _ _ _ _ _ Hcls Hid). cbv zeta.
  assert (Hstop : ∀ evs dc, odc = Some dc →
    dc_stop dc ∈ logging DEBUG "Handling reply: %r" :: stopped odc ++ evs).
  { intros evs dc ->. cbn. apply list_elem_of_further, list_elem_of_here. }
  destruct (raises _); [|destruct (raises _)]; cbn [self_of history_of];
    (split; [done|]); repeat (rewrite <- app_assoc || rewrite <- app_comm_cons);
    eexists;
    (split; [done|]); (split; [|by apply Hstop]).
  all: rewrite forwarded_cons_other by done; rewrite forwarded_stopped.
  all: rewrite forwarded_cons_call by done; f_equal.
  all: cbn [app]; rewrite !forwarded_cons_other by done.
  all: apply forwarded_cons_flush.
Qed.

Lemma disarmed_lookup id hd odc s :
  _callbacks s !! id = Some (hd, odc) →
  _callbacks (disarmed id hd odc s) !! id = Some (hd, None).
Proof.
  intros Hid. destruct odc as [dc|]; [|done]. cbn. apply lookup_insert_eq.
Qed.

Lemma disarmed_not_running id hd dc s : dc ∉ _running (disarmed id hd (Some dc) s).
Proof. cbn. apply not_elem_of_difference. right. by apply elem_of_singleton. Qed.

Lemma disarmed_cls id hd odc s : proxy_cls (disarmed id hd odc s) = proxy_cls s.
Proof. by destruct odc. Qed.

Lemma run_app evs evs' h s :
  run (evs ++ evs') h s = run evs' (run evs h s).2 (run evs h s).1.
Proof.
  revert h s. induction evs as [|ev evs IH]; intros h s; [done|].
  cbn [app run]. apply IH.
Qed.

(** A run of [DATA] replies keeps the entry and forwards the chunks in
    order. *)
Lemma run_DATA id hd (chunks : list frame) h s odc :
  proxy_cls s = Streaming →
  _callbacks s !! id = Some (hd, odc) →
  let r := run ((λ c, on_recv [id; "DATA"; c]) <$> chunks) h s in
  proxy_cls r.1 = Streaming ∧
  (∃ odc', _callbacks r.1 !! id = Some (hd, odc')) ∧
  ∃ evs, r.2 = h ++ evs ∧ forwarded hd evs = RequestHandler.write <$> chunks.
Proof.
  revert h s odc. induction chunks as [|c chunks IH]; intros h s odc Hcls Hid.
  - cbn. split_and!; [done|by eexists|]. exists []. by rewrite app_nil_r.
  - cbn [fmap list_fmap run deliver].
    destruct (streaming_DATA_forwards id c h s hd odc Hcls Hid)
      as (Hs & evs & Hh & Hfw & _).
    rewrite Hs, Hh.
    destruct (IH (h ++ evs) (disarmed id hd odc s) None) as (Hc & Hl & evs' & Hh' & Hfw').
    { by rewrite disarmed_cls. }
    { by apply disarmed_lookup. }
    split_and!; [done|done|].
    exists (evs ++ evs'). rewrite Hh', app_assoc. split; [done|].
    by rewrite forwarded_app, Hfw, Hfw'.
Qed.

(** C7. In the streaming proxy, for a pending request: after the first
    [DATA] reply the entry is still there, without timer, and the timer it
    had was stopped and no longer runs; after the further [DATA] replies
    and the [FINISH] reply the entry is gone, and the handler received the
    chunks through write in the order of arrival, then finish. *)
Theorem streaming_chunks_then_FINISH id hd odc chunk (chunks : list frame) h s :
  proxy_cls s = Streaming →
  _callbacks s !! id = Some (hd, odc) →
  let r1 := run [on_recv [id; "DATA"; chunk]] h s in
  let r2 := run (((λ c, on_recv [id; "DATA"; c]) <$> chunks)
                   ++ [on_recv [id; "FINISH"]]) r1.2 r1.1 in
  (_callbacks r1.1 !! id = Some (hd, None) ∧
   ∀ dc, odc = Some dc →
     (dc ∉ _running r1.1) ∧ ∃ evs, r1.2 = h ++ evs ∧ dc_stop dc ∈ evs) ∧
  _callbacks r2.1 !! id = None ∧
  ∃ evs, r2.2 = h ++ evs ∧
         forwarded hd evs =
           (RequestHandler.write <$> chunk :: chunks) ++ [RequestHandler.finish].
Proof.
  intros Hcls Hid. cbv zeta. cbn [run deliver fst snd].
  destruct (streaming_DATA_forwards id chunk h s hd odc Hcls Hid)
    as (Hs & evs & Hh & Hfw & Hstop).
  rewrite Hs, Hh. split.
  - split; [by apply disarmed_lookup|].
    intros dc ->. split; [apply disarmed_not_running|]. exists evs. eauto.
  - rewrite run_app.
    destruct (run_DATA id hd chunks (h ++ evs) (disarmed id hd odc s) None)
      as (Hc & [odc' Hl] & evs' & Hh' & Hfw').
    { by rewrite disarmed_cls. }
    { by apply disarmed_lookup. }
    cbn [run deliver fst snd]. rewrite Hh'.
    rewrite (streaming_FINISH _ _ _ _ _ _ Hc Hl). cbn [self_of history_of].
    split; [apply lookup_delete_eq|].
    eexists. rewrite <- ?app_assoc. split; [done|].
    rewrite !forwarded_app, Hfw, Hfw'.
    rewrite forwarded_cons_other by done. rewrite forwarded_cons_call by done.
    cbn. by rewrite <- ?app_assoc.
Qed.

(** *** The timeout *)

(** What [send_request] leaves in the proxy when [jsonapi.dumps]
    returns. *)
Lemma send_request_registers request args kwargs hd timeout h s json :
  dumps (PDict (request_dict request args kwargs)) = Ok json →
  let o := send_request request args kwargs hd timeout h s in
  let id := uuid4 (uuid4_calls s) in
  let dc := length (delayed s) in
  result_of o = Ok id ∧
  proxy_cls (self_of o) = proxy_cls s ∧
  if (0 <? timeout)%Z then
    _callbacks (self_of o) = <[id := (hd, Some dc)]> (_callbacks s) ∧
    delayed (self_of o) = delayed s ++ [(hd, id)] ∧
    _running (self_of o) = {[dc]} ∪ _running s
  else
    _callbacks (self_of o) = <[id := (hd, None)]> (_callbacks s) ∧
    delayed (self_of o) = delayed s ∧
    _running (self_of o) = _running s.
Proof.
  intros Hjson.
  unfold send_request, uuid4_bytes, callbacks_setitem, DelayedCallback,
    DelayedCallback_start.
  by destruct (0 <? timeout)%Z; mstep; rewrite Hjson.
Qed.

(** The delivery of a request leaves the proxy and the history as
    [send_request] does, whether it returns or raises. *)
Lemma deliver_on_request request args kwargs hd timeout h s :
  let o := send_request request args kwargs hd timeout h s in
  self_of (deliver (on_request request args kwargs hd timeout) h s) = self_of o ∧
  history_of (deliver (on_request request args kwargs hd timeout) h s) = history_of o.
Proof.
  unfold deliver, bind, ret. cbv zeta.
  by destruct (send_request request args kwargs hd timeout h s) as [[id|e] s1 h1].
Qed.

(** The timeout callback when the entry is gone: the handler is sent 504
    all the same, and an error is logged. *)
Lemma _handle_timeout_absent hd id h s :
  _callbacks s !! id = None →
  _handle_timeout hd id h s =
    match raises (h ++ [call_send_error hd]) with
    | Some e => Outcome (Raise e) s (h ++ [call_send_error hd])
    | None =>
        Outcome (Ok tt) s
          (h ++ [call_send_error hd;
                 logging ERROR "Unexpected error removing callbacks"])
    end.
Proof.
  intros Hid. unfold _handle_timeout. rewrite bind_external.
  destruct (raises _); [done|].
  unfold callbacks_pop. mstep. rewrite Hid. by rewrite <- app_assoc.
Qed.

(** The timeout callback when the entry is pending. *)
Lemma _handle_timeout_present hd id h s v :
  _callbacks s !! id = Some v →
  _handle_timeout hd id h s =
    match raises (h ++ [call_send_error hd]) with
    | Some e => Outcome (Raise e) s (h ++ [call_send_error hd])
    | None =>
        Outcome (Ok tt) (set_callbacks s (delete id (_callbacks s)))
          (h ++ [call_send_error hd])
    end.
Proof.
  intros Hid. unfold _handle_timeout. rewrite bind_external.
  destruct (raises _); [done|].
  unfold callbacks_pop. mstep. by rewrite Hid.
Qed.

(** C2. In the streaming proxy, a request sent with a timeout (its
    dictionary one that [jsonapi.dumps] serialises) and answered by
    [FINISH] before any [DATA]: the reply removes the entry and finishes
    the handler but leaves the timer running; when the timer comes due the
    callback finds no entry and still sends 504 to the handler. *)
Theorem timeout_after_FINISH_sends_504 request args kwargs hd timeout h s json :
  proxy_cls s = Streaming →
  (0 < timeout)%Z →
  dumps (PDict (request_dict request args kwargs)) = Ok json →
  let id := uuid4 (uuid4_calls s) in
  let dc := length (delayed s) in
  let r := run [on_request request args kwargs hd timeout;
                on_recv [id; "FINISH"]] h s in
  let o := DelayedCallback_run dc r.2 r.1 in
  _callbacks r.1 !! id = None ∧
  dc ∈ _running r.1 ∧
  (∃ evs, r.2 = h ++ evs ∧ handler_call hd RequestHandler.finish ∈ evs) ∧
  ∃ evs, history_of o = r.2 ++ call_send_error hd :: evs.
Proof.
  intros Hcls Htimeout Hjson. cbv zeta. cbn [run].
  destruct (deliver_on_request request args kwargs hd timeout h s) as [-> ->].
  cbn [deliver].
  destruct (send_request_registers request args kwargs hd timeout h s json Hjson)
    as (Hres & Hcls1 & Hreg).
  destruct (send_request_sends request args kwargs hd timeout h s json Hjson)
    as (_ & evs1 & Hh1 & _).
  apply Z.ltb_lt in Htimeout. rewrite Htimeout in Hreg.
  destruct Hreg as (Hcb & Hdel & Hrun).
  destruct (send_request request args kwargs hd timeout h s) as [res s1 h1].
  cbn [result_of self_of history_of] in *. subst res h1.
  assert (Hl : _callbacks s1 !! uuid4 (uuid4_calls s)
               = Some (hd, Some (length (delayed s)))).
  { rewrite Hcb. apply lookup_insert_eq. }
  rewrite Hcls in Hcls1.
  rewrite (streaming_FINISH _ _ _ _ _ _ Hcls1 Hl). cbn [fst snd self_of history_of].
  split_and!.
  - apply lookup_delete_eq.
  - cbn [_running set_callbacks]. rewrite Hrun.
    apply elem_of_union_l. by apply elem_of_singleton.
  - eexists. rewrite <- app_assoc. split; [done|].
    apply elem_of_app. right. apply list_elem_of_further, list_elem_of_here.
  - unfold DelayedCallback_run. mstep.
    cbn [set_callbacks _running delayed set_running _callbacks].
    destruct (decide _) as [_|Hnot].
    2: { destruct Hnot. rewrite Hrun. apply elem_of_union_l. by apply elem_of_singleton. }
    rewrite Hdel, lookup_app_r, Nat.sub_diag by done. cbn [lookup list_lookup].
    rewrite _handle_timeout_absent by apply lookup_delete_eq.
    destruct (raises _); cbn [history_of]; by eexists.
Qed.

(** *** Who claims a pending request *)


End properties.

(** ** Further properties *)

Section decoding_properties.
Context `{E : Externals}.

(** *** Decoding on the back end *)

(** Decoding reads the frame list and the settings, and nothing else: it
    leaves the application and the history alone, and its result does not
    depend on the history. *)
Lemma _parse_request_pure msg_list h (s : ZMQApplication) :
  _parse_request msg_list h s
    = Outcome (result_of (_parse_request msg_list [] s)) s h.
Proof.
  unfold _parse_request.
  destruct (length msg_list <? 4); [done|].
  mstep.
  destruct (list_index msg_list "|") as [i|]; [|done].
  destruct (getitem msg_list (i + 1)) as [I|]; [|done].
  destruct (result_bind (getitem msg_list (i + 2)) loads) as [req|]; [|done].
  destruct (length msg_list =? i + 4).
  1: destruct (getitem msg_list (i + 3)) as [body|]; [|done].
  all: repeat (match goal with
       | |- context [match ?r with Ok _ => _ | Raise _ => _ end] =>
           destruct r; [|done]
       end).
  all: done.
Qed.

(** X1. Whatever exception the decoding of an inbound frame list raises,
    the receive callback of the back end absorbs it if and only if it is
    [IndexError]: then it logs the error line and returns; any other
    exception ([ValueError], [KeyError], [TypeError], what [jsonapi.loads]
    or the request class raise) escapes after the debug line alone. The
    application itself is never changed. *)
Theorem handle_request_absorbs_only_IndexError msg_list h (s : ZMQApplication) e :
  result_of (_parse_request msg_list [] s) = Raise e →
  _handle_request msg_list h s =
    if decide (e = IndexError)
    then Outcome (Ok tt) s
           (h ++ [ logging DEBUG "Handling request: %r";
                   logging ERROR
                     "Unexpected request message format in ZMQApplication._handle_request." ])
    else Outcome (Raise e) s (h ++ [ logging DEBUG "Handling request: %r" ]).
Proof.
  intros He. unfold _handle_request. mstep.
  rewrite _parse_request_pure, He.
  destruct e; cbn; by rewrite <- ?app_assoc.
Qed.

(** X2. A frame list that decodes is dispatched exactly once, with the
    decoded request, args and kwargs; the call is made in the [else] clause
    of the [try] statement, so what [__call__] raises, [IndexError]
    included, escapes the receive callback and no error line is logged. *)
Theorem handle_request_dispatches_once msg_list h (s : ZMQApplication)
    request args kwargs :
  result_of (_parse_request msg_list [] s) = Ok (request, args, kwargs) →
  let h1 := h ++ [ logging DEBUG "Handling request: %r";
                   application_call request args kwargs ] in
  _handle_request msg_list h s =
    Outcome (match raises h1 with Some e => Raise e | None => Ok tt end) s h1.
Proof.
  intros Hok. unfold _handle_request. mstep.
  rewrite _parse_request_pure, Hok. unfold external. cbn.
  by rewrite <- !app_assoc.
Qed.

(** X3. A frame list that has its delimiter but fewer than two frames
    after it (no id, or no JSON frame) is reported as malformed, whatever
    its length: the error line is logged and the callback returns. *)
Theorem handle_request_truncated_after_delimiter (P rest : list frame) h
    (s : ZMQApplication) :
  ("|" ∉ P) →
  length rest < 2 →
  _handle_request (P ++ "|" :: rest) h s =
    Outcome (Ok tt) s
      (h ++ [ logging DEBUG "Handling request: %r";
              logging ERROR
                "Unexpected request message format in ZMQApplication._handle_request." ]).
Proof.
  intros HP Hrest.
  assert (result_of (_parse_request (P ++ "|" :: rest) [] s) = Raise IndexError) as He.
  { unfold _parse_request.
    destruct (length (P ++ "|" :: rest) <? 4) eqn:Hlen; [done|].
    mstep. rewrite (list_index_app _ _ _ HP).
    rewrite !getitem_app_r. unfold getitem.
    destruct rest as [|id [|json rest]]; [done|done|simpl in Hrest; lia]. }
  unfold _handle_request. mstep. rewrite _parse_request_pure, He. cbn.
  by rewrite <- app_assoc.
Qed.

Lemma body_or_empty (b : frame) : (if String.eqb b "" then "" else b) = b.
Proof. by destruct (String.eqb_spec b ""). Qed.

(** X4. The decoded body is the frame after the JSON frame when that frame
    is the last one of the list; with no such frame, or with further frames
    after it, the body is the empty string and the frames after the JSON
    frame are ignored. *)
Theorem parse_request_body_only_when_last (P : list frame) id json rest h
    (s : ZMQApplication) request args kwargs :
  ("|" ∉ P) →
  result_of (_parse_request (P ++ "|" :: id :: json :: rest) h s)
    = Ok (request, args, kwargs) →
  body request = match rest with [b] => b | _ => "" end.
Proof.
  intros HP. unfold _parse_request.
  destruct (length _ <? 4) eqn:Hlen; [done|].
  mstep. rewrite (list_index_app _ _ _ HP).
  rewrite !getitem_app_r. cbn [getitem lookup list_lookup result_bind].
  destruct (loads json) as [req|]; [|done].
  assert ((length (P ++ "|" :: id :: json :: rest) =? length P + 4)
          = bool_decide (length rest = 1)) as ->.
  { rewrite length_app. cbn [length]. case_bool_decide.
    - apply Nat.eqb_eq. lia.
    - apply Nat.eqb_neq. lia. }
  case_bool_decide as Hrest.
  - destruct rest as [|b [|]]; simplify_eq/=.
    repeat (match goal with
       | |- result_of (match ?r with Ok _ => _ | Raise _ => _ end) = _ → _ =>
           destruct r eqn:?; [|done]
       end).
    intros [= <- <- <-]. unfold ZMQHTTPRequest__init__ in *.
    destruct (native_str _); simplify_eq/=.
    destruct (urlsplit _); simplify_eq/=. apply body_or_empty.
  - repeat (match goal with
       | |- result_of (match ?r with Ok _ => _ | Raise _ => _ end) = _ → _ =>
           destruct r eqn:?; [|done]
       end).
    intros [= <- <- <-]. unfold ZMQHTTPRequest__init__ in *.
    destruct (native_str _); simplify_eq/=.
    destruct (urlsplit _); simplify_eq/=.
    by destruct rest as [|b [|]].
Qed.
End decoding_properties.

Section request_class_properties.
Context `{E : Externals}.

(** *** The back-end request classes, call after call *)

Lemma callback_calls_app evs evs' :
  callback_calls (evs ++ evs') = callback_calls evs ++ callback_calls evs'.
Proof. apply omap_app. Qed.

Lemma sent_logging (evs : list event) : Forall is_logging evs → sent evs = [].
Proof. induction 1 as [|e l He _ IHl]; [done|]. by destruct e. Qed.

Lemma callback_calls_logging (evs : list event) :
  Forall is_logging evs → callback_calls evs = [].
Proof. induction 1 as [|e l He _ IHl]; [done|]. by destruct e. Qed.

Lemma Forall_replicate_logging n lvl msg :
  Forall is_logging (replicate n (logging lvl msg)).
Proof. induction n; by constructor. Qed.

(** One write on a bulk request. *)
Lemma bulk_write c (cb : option callback) h r :
  cls r = Bulk →
  let r1 := match cb with Some cb => set_write_callback r (Some cb) | None => r end in
  write c cb h r =
    Outcome (Ok tt) (set_chunks r1 (_chunks r1 ++ [c]))
      (h ++ [logging DEBUG "Buffering chunk: %r"]).
Proof.
  intros Hcls. unfold write. mstep. rewrite Hcls.
  unfold ZMQHTTPRequest_write. mstep. by destruct cb.
Qed.

(** Writes on a bulk request only buffer. *)
Lemma bulk_writes (ws : list (frame * option callback)) h r :
  cls r = Bulk →
  let o := for_each ws (λ w, write w.1 w.2) h r in
  result_of o = Ok tt ∧
  cls (self_of o) = Bulk ∧
  idents (self_of o) = idents r ∧ msg_id (self_of o) = msg_id r ∧
  _chunks (self_of o) = _chunks r ++ ws.*1 ∧
  _write_callback (self_of o) = pending_callback (_write_callback r) ws ∧
  history_of o = h ++ replicate (length ws) (logging DEBUG "Buffering chunk: %r").
Proof.
  revert h r. induction ws as [|[c cb] ws IH]; intros h r Hcls; cbn [for_each].
  { cbn. by rewrite !app_nil_r. }
  unfold bind. cbn [fst snd]. rewrite (bulk_write c cb h r Hcls). cbv zeta.
  match goal with
  | |- context [for_each ws ?f ?h' ?r'] =>
      destruct (IH h' r') as (Hres & Hc & Hi & Hm & Hch & Hcb & Hh);
        [by destruct cb|]
  end.
  cbv zeta in *. rewrite Hres, Hc, Hi, Hm, Hch, Hcb, Hh.
  destruct cb; cbn; by rewrite <- !app_assoc.
Qed.

(** [finish] on a bulk request. *)
Lemma bulk_finish h r :
  cls r = Bulk →
  let o := finish h r in
  let msg_list := idents r ++ msg_id r :: _chunks r in
  result_of o = Ok tt ∧
  cls (self_of o) = Bulk ∧
  idents (self_of o) = idents r ∧ msg_id (self_of o) = msg_id r ∧
  _chunks (self_of o) = [] ∧
  _write_callback (self_of o) = None ∧
  ∃ logged, history_of o =
    h ++ logging DEBUG "Sending reply: %r" :: send_multipart msg_list ::
      match _write_callback r with
      | Some cb => callback_call cb :: logged
      | None => []
      end ∧ Forall is_logging logged.
Proof.
  intros Hcls. unfold finish. mstep. rewrite Hcls.
  unfold ZMQHTTPRequest_finish, _create_msg_list, external. mstep.
  cbn [set_chunks _write_callback].
  replace (([] ++ idents r) ++ [msg_id r]) with (idents r ++ [msg_id r]) by done.
  destruct (_write_callback r) as [cb|] eqn:Hw; [destruct (raises _)|]; cbn.
  all: rewrite ?Hw; split_and!; try done.
  all: flatten_history; cbn [app]; eexists; split; [done|].
  all: by repeat constructor.
Qed.

(** X5. A bulk request sends nothing while it is written to; [finish]
    sends one frame list, the identity frames, the id, the chunks buffered
    before and the chunks written, in order, and leaves the request with no
    chunk and no write callback. *)
Theorem bulk_request_sends_once_at_finish (ws : list (frame * option callback)) h r :
  cls r = Bulk →
  let o1 := for_each ws (λ w, write w.1 w.2) h r in
  let o := (for_each ws (λ w, write w.1 w.2) ;;; finish) h r in
  (∃ evs, history_of o1 = h ++ evs ∧ sent evs = []) ∧
  result_of o = Ok tt ∧
  (∃ evs, history_of o = h ++ evs ∧
          sent evs = [idents r ++ msg_id r :: _chunks r ++ ws.*1]) ∧
  _chunks (self_of o) = [] ∧
  _write_callback (self_of o) = None.
Proof.
  intros Hcls. cbv zeta.
  destruct (bulk_writes ws h r Hcls) as (Hres & Hc & Hi & Hm & Hch & Hcb & Hh).
  cbv zeta in *. split.
  { rewrite Hh. eexists. split; [done|].
    apply sent_logging, Forall_replicate_logging. }
  unfold bind. destruct (for_each ws _ h r) as [res r1 h1].
  cbn [result_of self_of history_of] in *. subst res h1.
  destruct (bulk_finish (h ++ replicate (length ws) (logging DEBUG "Buffering chunk: %r"))
              r1 Hc) as (Hres' & _ & _ & _ & Hch' & Hcb' & logged & Hh' & Hlog).
  cbv zeta in *. split_and!; [done| |done|done].
  rewrite Hh', Hi, Hm, Hch. eexists. rewrite <- app_assoc. split; [done|].
  rewrite sent_app, (sent_logging (replicate _ _)) by apply Forall_replicate_logging.
  cbn. f_equal.
  destruct (_write_callback r1); [|done]. cbn. by apply sent_logging.
Qed.

(** X6. Of the callbacks given to the writes of a bulk request only the
    last one is called, once, after the reply was sent; the earlier ones
    are overwritten and never called. *)
Theorem bulk_request_calls_last_callback (ws : list (frame * option callback)) h r :
  cls r = Bulk →
  let o := (for_each ws (λ w, write w.1 w.2) ;;; finish) h r in
  ∃ evs1 msg_list evs2,
    history_of o = h ++ evs1 ++ send_multipart msg_list :: evs2 ∧
    callback_calls evs1 = [] ∧
    callback_calls evs2 =
      match pending_callback (_write_callback r) ws with
      | Some cb => [cb]
      | None => []
      end.
Proof.
  intros Hcls. cbv zeta.
  destruct (bulk_writes ws h r Hcls) as (Hres & Hc & Hi & Hm & Hch & Hcb & Hh).
  cbv zeta in *.
  unfold bind. destruct (for_each ws _ h r) as [res r1 h1].
  cbn [result_of self_of history_of] in *. subst res h1.
  destruct (bulk_finish (h ++ replicate (length ws) (logging DEBUG "Buffering chunk: %r"))
              r1 Hc) as (_ & _ & _ & _ & _ & _ & logged & Hh' & Hlog).
  cbv zeta in *. rewrite Hh', <- app_assoc.
  exists (replicate (length ws) (logging DEBUG "Buffering chunk: %r")
            ++ [logging DEBUG "Sending reply: %r"]).
  eexists _, _. rewrite <- app_assoc. split; [done|]. split.
  - rewrite callback_calls_app. cbn. rewrite app_nil_r.
    apply callback_calls_logging, Forall_replicate_logging.
  - rewrite <- Hcb. destruct (_write_callback r1); [|done]. cbn. f_equal.
    by apply callback_calls_logging.
Qed.

(** One write on a streaming request. *)
Lemma streaming_write c (cb : option callback) h r :
  cls r = Streaming →
  let o := write c cb h r in
  result_of o = Ok tt ∧ self_of o = r ∧
  ∃ logged, history_of o =
    h ++ logging DEBUG "Sending write: %r"
      :: send_multipart (idents r ++ [msg_id r; "DATA"; c])
      :: match cb with Some cb => callback_call cb :: logged | None => [] end ∧
    Forall is_logging logged.
Proof.
  intros Hcls. unfold write. mstep. rewrite Hcls.
  unfold ZMQStreamingHTTPRequest_write, _create_msg_list, external. mstep.
  replace ((([] ++ idents r) ++ [msg_id r]) ++ ["DATA"; c])
    with (idents r ++ [msg_id r; "DATA"; c]) by by rewrite <- app_assoc.
  destruct cb as [cb|]; [destruct (raises _)|]; cbn.
  all: split_and!; try done.
  all: flatten_history; cbn [app]; eexists; split; [done|].
  all: by repeat constructor.
Qed.

(** Writes on a streaming request send at once and keep nothing. *)
Lemma streaming_writes (ws : list (frame * option callback)) h r :
  cls r = Streaming →
  let o := for_each ws (λ w, write w.1 w.2) h r in
  result_of o = Ok tt ∧ self_of o = r ∧
  ∃ evs, history_of o = h ++ evs ∧
         sent evs = (λ w, idents r ++ [msg_id r; "DATA"; w.1]) <$> ws ∧
         callback_calls evs = omap snd ws.
Proof.
  intros Hcls. cbv zeta. revert h.
  induction ws as [|[c cb] ws IH]; intros h; cbn [for_each].
  { cbn. split_and!; [done|done|]. exists []. by rewrite app_nil_r. }
  unfold bind. cbn [fst snd].
  destruct (streaming_write c cb h r Hcls) as (Hres & Hs & logged & Hh & Hlog).
  cbv zeta in *.
  destruct (write c cb h r) as [res r1 h1].
  cbn [result_of self_of history_of] in *. subst res r1 h1.
  match goal with
  | |- context [for_each ws _ ?h' r] =>
      destruct (IH h') as (Hres' & Hs' & evs & Hh' & Hsent & Hcb)
  end.
  split_and!; [done|done|]. rewrite Hh'.
  eexists. rewrite <- app_assoc. split; [done|].
  cbn [app sent callback_calls omap list_omap fmap list_fmap fst snd].
  destruct cb as [cb|]; cbn [app sent callback_calls omap list_omap snd].
  + rewrite sent_app, (sent_logging logged) by done.
    fold (callback_calls (logged ++ evs)).
    rewrite callback_calls_app, (callback_calls_logging logged) by done.
    cbn. by rewrite Hsent, Hcb.
  + fold (callback_calls evs). by rewrite Hsent, Hcb.
Qed.

(** X7. A streaming request sends one [DATA] frame list per write, at
    once and in order, then one [FINISH] frame list on [finish]; every
    callback given to a write is called, in order, and the request keeps
    nothing: it is the same object afterwards. *)
Theorem streaming_request_sends_each_write (ws : list (frame * option callback)) h r :
  cls r = Streaming →
  let o := (for_each ws (λ w, write w.1 w.2) ;;; finish) h r in
  result_of o = Ok tt ∧
  self_of o = r ∧
  ∃ evs, history_of o = h ++ evs ∧
         sent evs = ((λ w, idents r ++ [msg_id r; "DATA"; w.1]) <$> ws)
                      ++ [idents r ++ [msg_id r; "FINISH"]] ∧
         callback_calls evs = omap snd ws.
Proof.
  intros Hcls. cbv zeta.
  destruct (streaming_writes ws h r Hcls) as (Hres & Hs & evs & Hh & Hsent & Hcb).
  cbv zeta in *. unfold bind.
  destruct (for_each ws _ h r) as [res r1 h1].
  cbn [result_of self_of history_of] in *. subst res r1 h1.
  unfold finish. mstep. rewrite Hcls.
  unfold ZMQStreamingHTTPRequest_finish, _create_msg_list. mstep.
  split_and!; [done|done|]. eexists. rewrite <- !app_assoc. split; [done|].
  rewrite sent_app, callback_calls_app, Hsent, Hcb. cbn.
  by rewrite <- ?app_assoc, app_nil_r.
Qed.
End request_class_properties.

Section bulk_forwarding_properties.
Context `{E : Externals}.

(** *** The bulk proxy forwards in order *)

Lemma forwarded_write_calls hd (replies : list frame) evs :
  forwarded hd (((λ c, handler_call hd (RequestHandler.write c)) <$> replies) ++ evs)
    = (RequestHandler.write <$> replies) ++ forwarded hd evs.
Proof.
  induction replies as [|c replies IH]; [done|].
  cbn [fmap list_fmap app]. rewrite forwarded_cons_call by done. by rewrite IH.
Qed.

Lemma forwarded_forwarding hd (replies : list frame) :
  forwarded hd (forwarding hd replies)
    = (RequestHandler.write <$> replies) ++ [RequestHandler.finish].
Proof.
  unfold forwarding. rewrite forwarded_write_calls.
  rewrite !forwarded_cons_other by done. by rewrite forwarded_cons_call by done.
Qed.

Lemma quiet_after_app h evs : quiet_after h → quiet_after (h ++ evs).
Proof. intros Hq evs'. rewrite <- app_assoc. apply Hq. Qed.

(** The loop over the chunks: it writes the chunks up to the first write
    that raises, that one included. *)
Lemma for_each_write_calls_prefix (hd : handler) (replies : list frame) h
    (s : ZMQApplicationProxy) :
  let o := for_each replies (λ reply,
             external (handler_call hd (RequestHandler.write reply))) h s in
  self_of o = s ∧
  ∃ k, k ≤ length replies ∧
       history_of o =
         h ++ ((λ c, handler_call hd (RequestHandler.write c)) <$> take k replies) ∧
       (result_of o = Ok tt ∧ k = length replies ∨
        ∃ e, result_of o = Raise e ∧ 0 < k) ∧
       (quiet_after h → result_of o = Ok tt).
Proof.
  revert h. induction replies as [|reply replies IH]; intros h; cbn [for_each].
  - cbn. split; [done|]. exists 0. rewrite app_nil_r. split_and!; auto.
  - rewrite bind_external. destruct (raises _) eqn:Hr; cbn.
    + split; [done|]. exists 1. cbn. rewrite take_0. split_and!; [lia|done| |].
      * right. eexists. split; [done|lia].
      * intros Hq. by rewrite Hq in Hr.
    + destruct (IH (h ++ [handler_call hd (RequestHandler.write reply)]))
        as (Hs & k & Hk & Hh & Hres & Hq).
      split; [done|]. exists (S k). cbn [take fmap list_fmap].
      rewrite Hh, <- app_assoc. split_and!; [lia|done| |].
      * destruct Hres as [[? ->]|(e & ? & ?)]; [by left|right].
        eexists. split; [done|lia].
      * intros Hquiet. by apply Hq, quiet_after_app.
Qed.

Lemma forward_replies_unfold hd (replies : list frame) h (s : ZMQApplicationProxy) :
  forward_replies hd replies h s =
    match for_each replies (λ reply,
            external (handler_call hd (RequestHandler.write reply))) h s with
    | Outcome (Ok _) s' h' =>
        external (handler_call hd RequestHandler.finish)
          (h' ++ [handler_setattr hd "_headers_written";
                  handler_setattr hd "_transforms"]) s'
    | Outcome (Raise e) s' h' => Outcome (Raise e) s' h'
    end.
Proof.
  unfold forward_replies, bind, emit.
  destruct (for_each replies _ h s) as [[[]|e] s1 h1]; [|done].
  by flatten_history.
Qed.

(** The [try] body: either everything is forwarded, or it raises after a
    proper beginning of it. *)
Lemma forward_replies_outcome hd (replies : list frame) h (s : ZMQApplicationProxy) :
  let o := forward_replies hd replies h s in
  let full := (RequestHandler.write <$> replies) ++ [RequestHandler.finish] in
  self_of o = s ∧
  (result_of o = Ok tt ∧ history_of o = h ++ forwarding hd replies ∨
   ∃ e evs k, result_of o = Raise e ∧ history_of o = h ++ evs ∧
              forwarded hd evs = take k full ∧ 0 < k ∧
              Forall (λ ev, ¬ is_logging ev) evs) ∧
  (quiet_after h → result_of o = Ok tt).
Proof.
  cbv zeta. rewrite forward_replies_unfold.
  destruct (for_each_write_calls_prefix hd replies h s)
    as (Hs & k & Hk & Hh & Hres & Hq).
  cbv zeta in *.
  assert (Hnolog : ∀ l : list frame,
    Forall (λ ev, ¬ is_logging ev)
      ((λ c, handler_call hd (RequestHandler.write c)) <$> l)).
  { intros l. apply Forall_fmap, Forall_true. intros c. cbn. tauto. }
  destruct (for_each replies _ h s) as [res s1 h1].
  cbn [result_of self_of history_of] in *. subst s1 h1.
  destruct Hres as [[-> ->]|(e & -> & Hk0)].
  - rewrite firstn_all. unfold external. cbn [result_of self_of history_of].
    split; [done|].
    replace (((h ++ ((λ c, handler_call hd (RequestHandler.write c)) <$> replies))
                ++ [handler_setattr hd "_headers_written";
                    handler_setattr hd "_transforms"])
               ++ [handler_call hd RequestHandler.finish])
      with (h ++ forwarding hd replies)
      by (unfold forwarding; by flatten_history).
    destruct (raises _) eqn:Hr; cbn [result_of history_of].
    + split.
      * right. exists e, (forwarding hd replies), (S (length replies)).
        split_and!; [done|done| |lia|].
        -- rewrite forwarded_forwarding, take_ge; [done|].
           rewrite length_app, length_fmap. cbn. lia.
        -- unfold forwarding. apply Forall_app. split; [apply Hnolog|].
           repeat constructor; cbn; tauto.
      * intros Hquiet. by rewrite Hquiet in Hr.
    + split; [by left|done].
  - split; [done|]. split.
    + right. exists e, ((λ c, handler_call hd (RequestHandler.write c)) <$> take k replies), k.
      split_and!; [done|done| |done|apply Hnolog].
      pose proof (forwarded_write_calls hd (take k replies) []) as Hf.
      rewrite app_nil_r in Hf. rewrite Hf, app_nil_r.
      rewrite take_app_le by (rewrite length_fmap; lia).
      by rewrite fmap_take.
    + intros Hquiet. by specialize (Hq Hquiet).
Qed.

(** A reply for a pending request, in the bulk proxy: pop, stop, then the
    [try] statement. *)
Lemma bulk_reply_unfold id rest h s hd odc :
  proxy_cls s = Bulk →
  rest ≠ [] →
  _callbacks s !! id = Some (hd, odc) →
  let s0 := set_callbacks s (delete id (_callbacks s)) in
  let s1 := match odc with
            | Some dc => set_running s0 (_running s0 ∖ {[dc]})
            | None => s0
            end in
  _handle_reply (id :: rest) h s =
    try_except (forward_replies hd rest)
      (λ _, emit (logging ERROR "Unexpected error in ZMQApplicationProxy._handle_reply"))
      (h ++ logging DEBUG "Handling reply: %r" :: stopped odc) s1.
Proof.
  intros Hcls Hrest Hid. destruct rest as [|tag rest]; [done|].
  unfold _handle_reply, ZMQApplicationProxy_handle_reply, callbacks_pop_default,
    DelayedCallback_stop, forward_replies.
  mstep. rewrite Hcls. cbn [length Nat.ltb Nat.leb getitem lookup list_lookup].
  rewrite Hid. cbn [drop].
  destruct odc as [dc|]; cbn [stopped]; by flatten_history.
Qed.

(** X8. In the bulk proxy, when no call on the handler raises, a reply for
    a pending request stops the timer, passes every frame after the id to
    the handler's write in order, marks the headers as written, empties the
    transforms and finishes the handler, and logs nothing but the debug
    line. *)
Theorem bulk_reply_forwards_everything id rest h s hd odc :
  proxy_cls s = Bulk →
  rest ≠ [] →
  _callbacks s !! id = Some (hd, odc) →
  quiet_after h →
  let o := _handle_reply (id :: rest) h s in
  result_of o = Ok tt ∧
  history_of o =
    h ++ logging DEBUG "Handling reply: %r" :: stopped odc ++ forwarding hd rest.
Proof.
  intros Hcls Hrest Hid Hquiet. cbv zeta.
  rewrite (bulk_reply_unfold id rest h s hd odc Hcls Hrest Hid). cbv zeta.
  unfold try_except.
  match goal with
  | |- context [forward_replies hd rest ?h1 ?s1] =>
      destruct (forward_replies_outcome hd rest h1 s1) as (_ & Hor & Hq);
      specialize (Hq (quiet_after_app _ _ Hquiet));
      destruct (forward_replies hd rest h1 s1) as [res s2 h2]
  end.
  cbn [result_of self_of history_of] in *. subst res.
  destruct Hor as [[_ ->]|(e & evs & k & ? & _)]; [|done].
  split; [done|]. by flatten_history.
Qed.


(** *** Back end and front end together *)

(** X10. A bulk request that is finished without having been written to
    sends the identity frames and the id alone; what reaches the proxy,
    the identity frames stripped, is a single frame, which the proxy drops
    as an unexpected reply: the proxy is unchanged, so a pending entry for
    that id stays, and no handler is called. *)
Theorem empty_bulk_reply_is_dropped (r : ZMQHTTPRequest) hb h (s : ZMQApplicationProxy) :
  cls r = Bulk →
  _chunks r = [] →
  let msg_list := idents r ++ [msg_id r] in
  let o := _handle_reply (drop (length (idents r)) msg_list) h s in
  (∃ evs, history_of (finish hb r) = hb ++ evs ∧ sent evs = [msg_list]) ∧
  result_of o = Ok tt ∧ self_of o = s ∧
  ∃ evs, history_of o = h ++ evs ∧ Forall is_logging evs.
Proof.
  intros Hcls Hch. cbv zeta. split.
  - destruct (bulk_finish hb r Hcls) as (_ & _ & _ & _ & _ & _ & logged & Hh & Hlog).
    cbv zeta in Hh. rewrite Hh, Hch. eexists. split; [done|]. cbn. f_equal.
    destruct (_write_callback r); [|done]. cbn. by apply sent_logging.
  - rewrite drop_app_length.
    destruct (_handle_reply_short [msg_id r] h s) as [msg ->]; [cbn; lia|].
    cbn. split_and!; [done|done|]. eexists. split; [done|]. by repeat constructor.
Qed.

(** X11. Back end and front end together, bulk: for a request with at
    least one chunk, what [finish] sends, the identity frames stripped,
    makes the proxy remove the pending entry of that id and pass the
    chunks to the handler in the order they were written, then finish it
    (when no call on the handler raises). *)
Theorem bulk_reply_end_to_end (r : ZMQHTTPRequest) hb h (s : ZMQApplicationProxy)
    hd odc :
  cls r = Bulk →
  _chunks r ≠ [] →
  proxy_cls s = Bulk →
  _callbacks s !! msg_id r = Some (hd, odc) →
  quiet_after h →
  ∃ msg_list evs,
    history_of (finish hb r) = hb ++ evs ∧ sent evs = [msg_list] ∧
    let o := _handle_reply (drop (length (idents r)) msg_list) h s in
    result_of o = Ok tt ∧
    _callbacks (self_of o) !! msg_id r = None ∧
    ∃ evs', history_of o = h ++ evs' ∧
            forwarded hd evs' = (RequestHandler.write <$> _chunks r)
                                  ++ [RequestHandler.finish].
Proof.
  intros Hcls Hch Hpcls Hid Hquiet.
  destruct (bulk_finish hb r Hcls) as (_ & _ & _ & _ & _ & _ & logged & Hh & Hlog).
  cbv zeta in Hh. eexists (idents r ++ msg_id r :: _chunks r), _.
  split; [exact Hh|]. split.
  { cbn. f_equal. destruct (_write_callback r); [|done]. cbn. by apply sent_logging. }
  cbv zeta. rewrite drop_app_length.
  destruct (bulk_reply_known (msg_id r) (_chunks r) h s hd odc Hpcls Hch Hid)
    as (Hres & Hcb & _).
  rewrite (bulk_reply_unfold (msg_id r) (_chunks r) h s hd odc Hpcls Hch Hid) in *.
  cbv zeta in *. split; [done|]. split; [rewrite Hcb; apply lookup_delete_eq|].
  unfold try_except.
  match goal with
  | |- context [forward_replies hd ?l ?h1 ?s1] =>
      destruct (forward_replies_outcome hd l h1 s1) as (_ & Hor & Hq);
      specialize (Hq (quiet_after_app _ _ Hquiet));
      destruct (forward_replies hd l h1 s1) as [res s2 h2]
  end.
  cbn [result_of self_of history_of] in *. subst res.
  destruct Hor as [[_ ->]|(e & evs & k & ? & _)]; [|done].
  eexists. flatten_history. split; [done|].
  rewrite forwarded_cons_other by done.
  rewrite forwarded_stopped. apply forwarded_forwarding.
Qed.
End bulk_forwarding_properties.

Section timer_properties.
Context `{E : Externals}.

(** *** Sending a request *)

(** X12. [send_request] mints an id, then serialises the request. When
    [jsonapi.dumps] raises, its exception escapes: nothing is logged or
    sent, no entry is registered and no timer is created. When it returns,
    [send_request] returns the id, sends one frame list and registers the
    handler under the id; it creates and starts a timer if and only if the
    timeout is positive, and otherwise registers no timer, creates none and
    starts none. *)
Theorem send_request_arms_timer_iff_positive request args kwargs hd timeout h s :
  let o := send_request request args kwargs hd timeout h s in
  let id := uuid4 (uuid4_calls s) in
  let dc := length (delayed s) in
  let armed := bool_decide (0 < timeout)%Z in
  uuid4_calls (self_of o) = S (uuid4_calls s) ∧
  proxy_cls (self_of o) = proxy_cls s ∧
  match dumps (PDict (request_dict request args kwargs)) with
  | Raise e =>
      result_of o = Raise e ∧
      history_of o = h ∧
      _callbacks (self_of o) = _callbacks s ∧
      delayed (self_of o) = delayed s ∧
      _running (self_of o) = _running s
  | Ok json =>
      result_of o = Ok id ∧
      history_of o =
        h ++ [logging DEBUG "Sending request: %r";
              send_multipart (encoded id json request)]
          ++ (if armed then [dc_start dc] else []) ∧
      _callbacks (self_of o)
        = <[id := (hd, if armed then Some dc else None)]> (_callbacks s) ∧
      delayed (self_of o) = delayed s ++ (if armed then [(hd, id)] else []) ∧
      _running (self_of o) = (if armed then {[dc]} ∪ _running s else _running s)
  end.
Proof.
  unfold send_request, uuid4_bytes, callbacks_setitem, DelayedCallback,
    DelayedCallback_start, encoded. cbv zeta.
  destruct (dumps _) as [json|e]; [|by mstep].
  destruct (Z.ltb_spec 0 timeout) as [Hlt|Hge].
  - rewrite bool_decide_eq_true_2 by done. mstep. cbn.
    split_and!; try done. flatten_history. by destruct (String.eqb _ _).
  - rewrite bool_decide_eq_false_2 by lia. mstep. cbn. rewrite app_nil_r.
    split_and!; try done. flatten_history. by destruct (String.eqb _ _).
Qed.

(** *** The timer comes due *)

Lemma DelayedCallback_run_running dc hd id h s :
  dc ∈ _running s →
  delayed s !! dc = Some (hd, id) →
  DelayedCallback_run dc h s
    = _handle_timeout hd id h (set_running s (_running s ∖ {[dc]})).
Proof.
  intros Hrun Hdel. unfold DelayedCallback_run. mstep.
  destruct (decide _); [|done]. by rewrite Hdel.
Qed.

Lemma DelayedCallback_run_stopped dc h s :
  dc ∉ _running s → DelayedCallback_run dc h s = Outcome (Ok tt) s h.
Proof.
  intros Hrun. unfold DelayedCallback_run. mstep. by destruct (decide _).
Qed.

(** X13. When the timer of a pending request comes due and
    [send_error] returns, the handler is sent 504, the entry is removed
    and nothing is logged; the timer is one-shot, and a reply that arrives
    later for that id is dropped with the debug line alone. *)
Theorem timeout_fires_on_pending_request dc hd id v h s :
  dc ∈ _running s →
  delayed s !! dc = Some (hd, id) →
  _callbacks s !! id = Some v →
  raises (h ++ [call_send_error hd]) = None →
  let o := DelayedCallback_run dc h s in
  result_of o = Ok tt ∧
  history_of o = h ++ [call_send_error hd] ∧
  _callbacks (self_of o) = delete id (_callbacks s) ∧
  _running (self_of o) = _running s ∖ {[dc]} ∧
  (∀ h2, DelayedCallback_run dc h2 (self_of o) = Outcome (Ok tt) (self_of o) h2) ∧
  (∀ rest h2, rest ≠ [] →
     _handle_reply (id :: rest) h2 (self_of o)
       = Outcome (Ok tt) (self_of o) (h2 ++ [logging DEBUG "Handling reply: %r"])).
Proof.
  intros Hrun Hdel Hid Hr. cbv zeta.
  rewrite (DelayedCallback_run_running dc hd id h s Hrun Hdel).
  rewrite (_handle_timeout_present hd id h _ v) by done.
  rewrite Hr. cbn [result_of self_of history_of set_callbacks set_running
                   _callbacks _running].
  split_and!; try done.
  - intros h2. apply DelayedCallback_run_stopped. cbn.
    apply not_elem_of_difference. right. by apply elem_of_singleton.
  - intros rest h2 Hrest. apply _handle_reply_unknown; [done|].
    cbn. apply lookup_delete_eq.
Qed.

(** X14. When [send_error] raises in the timeout callback, the exception
    escapes before the entry is removed: the registry is left as it was,
    with the entry of a timer that has fired and will not fire again. *)
Theorem timeout_send_error_raises_keeps_entry dc hd id h s e :
  dc ∈ _running s →
  delayed s !! dc = Some (hd, id) →
  raises (h ++ [call_send_error hd]) = Some e →
  let o := DelayedCallback_run dc h s in
  result_of o = Raise e ∧
  history_of o = h ++ [call_send_error hd] ∧
  _callbacks (self_of o) = _callbacks s ∧
  _running (self_of o) = _running s ∖ {[dc]} ∧
  (∀ h2, DelayedCallback_run dc h2 (self_of o) = Outcome (Ok tt) (self_of o) h2).
Proof.
  intros Hrun Hdel Hr. cbv zeta.
  rewrite (DelayedCallback_run_running dc hd id h s Hrun Hdel).
  unfold _handle_timeout, call_send_error in *. rewrite bind_external, Hr.
  cbn [result_of self_of history_of set_running _callbacks _running].
  split_and!; try done.
  intros h2. apply DelayedCallback_run_stopped. cbn.
  apply not_elem_of_difference. right. by apply elem_of_singleton.
Qed.
End timer_properties.

Section registry_properties.
Context `{E : Externals}.

(** *** What a reply or a timeout can do to the proxy *)

Lemma shrinks_intro (s s' : ZMQApplicationProxy) :
  proxy_cls s' = proxy_cls s →
  delayed s' = delayed s →
  uuid4_calls s' = uuid4_calls s →
  _running s' ⊆ _running s →
  (∀ id hd odc, _callbacks s' !! id = Some (hd, odc) →
     ∃ odc0, _callbacks s !! id = Some (hd, odc0) ∧ (odc = odc0 ∨ odc = None)) →
  shrinks s s'.
Proof.
  intros Hc Hd Hu Hr Hcb. split_and!; try done.
  - intros id [[hd odc] Hid]%elem_of_dom.
    destruct (Hcb id hd odc Hid) as (odc0 & Hid0 & _). by apply elem_of_dom_2 in Hid0.
  - intros id hd dc Hid. destruct (Hcb id hd (Some dc) Hid) as (odc0 & Hid0 & [<-|?]); done.
Qed.

Lemma shrinks_refl s : shrinks s s.
Proof. apply shrinks_intro; try done. intros id hd odc Hid. eauto. Qed.

Lemma shrinks_delete s id r :
  r ⊆ _running s →
  shrinks s (set_running (set_callbacks s (delete id (_callbacks s))) r).
Proof.
  intros Hr. apply shrinks_intro; try done. cbn.
  intros id' hd odc [_ Hid]%lookup_delete_Some. eauto.
Qed.

Lemma shrinks_disarmed s id hd odc :
  _callbacks s !! id = Some (hd, odc) → shrinks s (disarmed id hd odc s).
Proof.
  intros Hid. destruct odc as [dc|]; [|apply shrinks_refl].
  apply shrinks_intro; try done; cbn.
  - apply subseteq_difference_l. done.
  - intros id' hd' odc'. rewrite lookup_insert. case_decide as Hne.
    + subst id'. intros [= <- <-]. eauto.
    + eauto.
Qed.

(** The bulk proxy after a reply for a pending request. *)
Lemma bulk_reply_state id rest h s hd odc :
  proxy_cls s = Bulk →
  rest ≠ [] →
  _callbacks s !! id = Some (hd, odc) →
  self_of (_handle_reply (id :: rest) h s)
    = set_running (set_callbacks s (delete id (_callbacks s)))
        (match odc with Some dc => _running s ∖ {[dc]} | None => _running s end).
Proof.
  intros Hcls Hrest Hid.
  rewrite (bulk_reply_unfold id rest h s hd odc Hcls Hrest Hid). cbv zeta.
  unfold try_except.
  match goal with
  | |- context [forward_replies hd rest ?h1 ?s1] =>
      destruct (forward_replies_outcome hd rest h1 s1) as (Hs & _);
      destruct (forward_replies hd rest h1 s1) as [[[]|e] s2 h2]
  end; cbn [self_of] in *; subst s2; cbn [emit self_of]; by destruct odc.
Qed.

Lemma _handle_reply_shrinks msg_list h s :
  shrinks s (self_of (_handle_reply msg_list h s)).
Proof.
  destruct (decide (length msg_list < 2)) as [Hlen|Hlen].
  { destruct (_handle_reply_short msg_list h s Hlen) as [msg ->]. apply shrinks_refl. }
  destruct msg_list as [|id [|tag rest]]; [simpl in Hlen; lia..|].
  destruct (_callbacks s !! id) as [[hd odc]|] eqn:Hid.
  2: { rewrite _handle_reply_unknown by done. apply shrinks_refl. }
  destruct (proxy_cls s) eqn:Hcls.
  - rewrite (bulk_reply_state id (tag :: rest) h s hd odc) by done.
    apply shrinks_delete. destruct odc; [|done]. by apply subseteq_difference_l.
  - destruct (decide (tag = "FINISH")) as [->|Hfin].
    { rewrite (streaming_FINISH _ _ _ _ _ _ Hcls Hid). cbn [self_of].
      apply (shrinks_delete s id (_running s)). done. }
    destruct (decide (tag = "DATA" ∧ length rest = 1)) as [[-> Hrest]|Hdata].
    + destruct rest as [|chunk [|]]; simplify_eq/=.
      destruct (streaming_DATA_forwards id chunk h s hd odc Hcls Hid) as (-> & _).
      by apply shrinks_disarmed.
    + rewrite (streaming_other _ _ _ _ _ _ _ Hcls Hid Hfin Hdata). apply shrinks_refl.
Qed.

Lemma DelayedCallback_run_shrinks dc h s :
  shrinks s (self_of (DelayedCallback_run dc h s)).
Proof.
  destruct (decide (dc ∈ _running s)) as [Hrun|Hrun].
  2: { rewrite DelayedCallback_run_stopped by done. apply shrinks_refl. }
  destruct (delayed s !! dc) as [[hd id]|] eqn:Hdel.
  2: { unfold DelayedCallback_run. mstep. destruct (decide _); [|done].
       rewrite Hdel. cbn. apply shrinks_intro; try done; cbn.
       - by apply subseteq_difference_l.
       - eauto. }
  rewrite (DelayedCallback_run_running dc hd id h s Hrun Hdel).
  set (s1 := set_running s _).
  assert (Hs1 : shrinks s s1).
  { apply shrinks_intro; try done; cbn; [by apply subseteq_difference_l|eauto]. }
  destruct (_callbacks s1 !! id) eqn:Hid.
  - rewrite (_handle_timeout_present _ _ _ _ _ Hid).
    destruct (raises _); [done|]. cbn [self_of].
    apply (shrinks_delete s id (_running s ∖ {[dc]})). by apply subseteq_difference_l.
  - rewrite (_handle_timeout_absent _ _ _ _ Hid). by destruct (raises _).
Qed.

Lemma deliver_shrinks ev h s :
  reply_or_timeout ev → shrinks s (self_of (deliver ev h s)).
Proof.
  destruct ev; [done|intros _..]; cbn [deliver].
  - apply _handle_reply_shrinks.
  - apply DelayedCallback_run_shrinks.
Qed.

(** *** Registry, timers and ids agree *)

Lemma consistent_shrinks s s' : consistent s → shrinks s s' → consistent s'.
Proof.
  intros (Hcb & Hrun & Hdom) (Hc & Hd & Hu & Hr & Hdm & Hsome).
  split_and!.
  - intros id hd dc Hid. rewrite Hd. by apply Hcb, Hsome.
  - intros dc Hdc. rewrite Hd. by apply Hrun, Hr.
  - intros id Hid. rewrite Hu. by apply Hdom, Hdm.
Qed.

Lemma consistent_send_request request args kwargs hd timeout h s :
  consistent s →
  consistent (self_of (send_request request args kwargs hd timeout h s)).
Proof.
  intros (Hcb & Hrun & Hdom).
  destruct (dumps (PDict (request_dict request args kwargs))) as [json|e] eqn:Hjson.
  2: { destruct (send_request_raises request args kwargs hd timeout h s e Hjson)
         as (_ & _ & _ & Hc & Hd & Hr & Hu).
       cbv zeta in *. split_and!.
       - intros id hd' dc. rewrite Hc, Hd. apply Hcb.
       - intros dc. rewrite Hr, Hd. apply Hrun.
       - intros id. rewrite Hc, Hu. intros Hid.
         destruct (Hdom id Hid) as (k & Hk & <-). exists k. split; [lia|done]. }
  destruct (send_request_registers request args kwargs hd timeout h s json Hjson)
    as (_ & _ & Hreg).
  assert (Hu : uuid4_calls (self_of (send_request request args kwargs hd timeout h s))
               = S (uuid4_calls s)).
  { unfold send_request, uuid4_bytes, callbacks_setitem, DelayedCallback,
      DelayedCallback_start. by destruct (0 <? timeout)%Z; mstep; rewrite Hjson. }
  assert (Hdom' : ∀ v id,
    id ∈ dom (<[uuid4 (uuid4_calls s) := v]> (_callbacks s)) →
    ∃ k, k < S (uuid4_calls s) ∧ uuid4 k = id).
  { intros v id. rewrite dom_insert, elem_of_union, elem_of_singleton.
    intros [->|Hid]; [exists (uuid4_calls s); split; [lia|done]|].
    destruct (Hdom id Hid) as (k & Hk & <-). exists k. split; [lia|done]. }
  destruct (0 <? timeout)%Z; destruct Hreg as (Hc & Hd & Hr); split_and!.
  - intros id hd' dc. rewrite Hc, Hd, lookup_insert. case_decide as Hne.
    + subst id. intros [= <- <-]. rewrite lookup_app_r by lia. by rewrite Nat.sub_diag.
    + intros Hid. apply lookup_app_l_Some. by apply Hcb.
  - intros dc. rewrite Hr, Hd, length_app, elem_of_union, elem_of_singleton. cbn.
    intros [->|Hdc]; [lia|]. specialize (Hrun dc Hdc). lia.
  - rewrite Hu, Hc. apply Hdom'.
  - intros id hd' dc. rewrite Hc, Hd, lookup_insert. case_decide as Hne; [done|].
    apply Hcb.
  - intros dc. rewrite Hr, Hd. apply Hrun.
  - rewrite Hu, Hc. apply Hdom'.
Qed.

Lemma run_consistent evs h s : consistent s → consistent (run evs h s).1.
Proof.
  revert h s. induction evs as [|ev evs IH]; intros h s Hs; [done|].
  cbn [run]. apply IH.
  destruct ev as [request args kwargs hd timeout|msg_list|dc].
  - destruct (deliver_on_request request args kwargs hd timeout h s) as [-> _].
    by apply consistent_send_request.
  - eapply consistent_shrinks; [done|]. by apply deliver_shrinks.
  - eapply consistent_shrinks; [done|]. by apply deliver_shrinks.
Qed.

Lemma consistent_init c : consistent (ZMQApplicationProxy__init__ c).
Proof.
  split_and!; cbn.
  - intros id hd dc. by rewrite lookup_empty.
  - intros dc Hdc. by apply not_elem_of_empty in Hdc.
  - intros id. rewrite dom_empty. intros Hid. by apply not_elem_of_empty in Hid.
Qed.

(** X15. Along any sequence of requests, replies and timeouts from a new
    proxy: the timer kept in a pending entry is the one created for that
    entry's handler and id, every running timer was created, and every
    pending id was minted by [uuid.uuid4]. *)
Theorem registry_and_timers_agree (c : delivery) (evs : list loop_event) :
  let s := (run evs [] (ZMQApplicationProxy__init__ c)).1 in
  (∀ id hd dc, _callbacks s !! id = Some (hd, Some dc) →
               delayed s !! dc = Some (hd, id)) ∧
  (∀ dc, dc ∈ _running s → dc < length (delayed s)) ∧
  (∀ id, id ∈ dom (_callbacks s) → ∃ k, k < uuid4_calls s ∧ uuid4 k = id).
Proof. apply run_consistent, consistent_init. Qed.

(** X16. When [uuid.uuid4] never repeats an id, a new request never
    takes the place of a pending one: after any sequence of deliveries the
    id minted next is not pending, and [send_request] leaves the entry of
    every other id as it was; when it returns, it returns that id and has
    added exactly one entry, under it; when it raises, the registry is as
    it was. *)
Theorem send_request_never_overwrites (c : delivery) (evs : list loop_event)
    request args kwargs hd timeout :
  Inj (=) (=) uuid4 →
  let r := run evs [] (ZMQApplicationProxy__init__ c) in
  let o := send_request request args kwargs hd timeout r.2 r.1 in
  (uuid4 (uuid4_calls r.1) ∉ dom (_callbacks r.1)) ∧
  (∀ id, id ≠ uuid4 (uuid4_calls r.1) →
         _callbacks (self_of o) !! id = _callbacks r.1 !! id) ∧
  match result_of o with
  | Ok id =>
      id = uuid4 (uuid4_calls r.1) ∧
      (∃ odc, _callbacks (self_of o) !! id = Some (hd, odc)) ∧
      size (_callbacks (self_of o)) = S (size (_callbacks r.1))
  | Raise _ => _callbacks (self_of o) = _callbacks r.1
  end.
Proof.
  intros Hinj. cbv zeta.
  destruct (run_consistent evs [] _ (consistent_init c)) as (_ & _ & Hdom).
  set (r := run evs [] (ZMQApplicationProxy__init__ c)) in *.
  assert (Hfresh : uuid4 (uuid4_calls r.1) ∉ dom (_callbacks r.1)).
  { intros (k & Hk & Heq)%Hdom. apply Hinj in Heq. lia. }
  split; [done|].
  destruct (dumps (PDict (request_dict request args kwargs))) as [json|e] eqn:Hjson.
  - destruct (send_request_registers request args kwargs hd timeout r.2 r.1 json Hjson)
      as (-> & _ & Hreg).
    apply not_elem_of_dom in Hfresh.
    destruct (0 <? timeout)%Z; destruct Hreg as (-> & _); split.
    all: try (intros id Hne; by rewrite lookup_insert_ne).
    all: split_and!; [done|eexists; apply lookup_insert_eq|
                      by apply map_size_insert_None].
  - destruct (send_request_raises request args kwargs hd timeout r.2 r.1 e Hjson)
      as (-> & _ & _ & -> & _). done.
Qed.
End registry_properties.

Section isolation_properties.
Context `{E : Externals}.

(** *** Requests do not disturb one another *)

(** The proxy after a reply whose first frame is [id']. *)
Lemma _handle_reply_state_cases id' rest h s :
  let s' := self_of (_handle_reply (id' :: rest) h s) in
  s' = s ∨
  ∃ hd' odc', _callbacks s !! id' = Some (hd', odc') ∧
    (s' = set_running (set_callbacks s (delete id' (_callbacks s)))
            (match odc' with Some dc => _running s ∖ {[dc]} | None => _running s end) ∨
     s' = set_callbacks s (delete id' (_callbacks s)) ∨
     s' = disarmed id' hd' odc' s).
Proof.
  cbv zeta.
  destruct (decide (length (id' :: rest) < 2)) as [Hlen|Hlen].
  { destruct (_handle_reply_short (id' :: rest) h s Hlen) as [msg ->]. by left. }
  destruct rest as [|tag rest]; [simpl in Hlen; lia|].
  destruct (_callbacks s !! id') as [[hd' odc']|] eqn:Hid.
  2: { rewrite _handle_reply_unknown by done. by left. }
  destruct (proxy_cls s) eqn:Hcls.
  - right. exists hd', odc'. split; [done|]. left.
    by apply (bulk_reply_state id' (tag :: rest) h s hd' odc').
  - destruct (decide (tag = "FINISH")) as [->|Hfin].
    { right. exists hd', odc'. split; [done|].
      rewrite (streaming_FINISH _ _ _ _ _ _ Hcls Hid). auto. }
    destruct (decide (tag = "DATA" ∧ length rest = 1)) as [[-> Hrest]|Hdata].
    + right. exists hd', odc'. split; [done|].
      destruct rest as [|chunk [|]]; simplify_eq/=.
      destruct (streaming_DATA_forwards id' chunk h s hd' odc' Hcls Hid) as (-> & _).
      auto.
    + left. by rewrite (streaming_other _ _ _ _ _ _ _ Hcls Hid Hfin Hdata).
Qed.

(** X17. A reply for one id, whatever its shape and in either proxy
    class, leaves the pending request of another id alone: its entry, its
    handler and its running timer are as before. *)
Theorem reply_leaves_other_requests_alone id id' rest h s hd dc :
  consistent s →
  id' ≠ id →
  _callbacks s !! id = Some (hd, Some dc) →
  dc ∈ _running s →
  let s' := self_of (_handle_reply (id' :: rest) h s) in
  _callbacks s' !! id = Some (hd, Some dc) ∧
  dc ∈ _running s' ∧
  delayed s' !! dc = Some (hd, id).
Proof.
  intros (Hcb & _ & _) Hne Hid Hrun. cbv zeta.
  pose proof (_handle_reply_shrinks (id' :: rest) h s) as (_ & Hd & _).
  rewrite Hd. split_and!; [| |by apply Hcb].
  all: destruct (_handle_reply_state_cases id' rest h s)
         as [->|(hd' & odc' & Hid' & [->|[->| ->]])]; try done; cbn.
  - by rewrite lookup_delete_ne.
  - by rewrite lookup_delete_ne.
  - destruct odc'; [|done]. cbn. by rewrite lookup_insert_ne.
  - destruct odc' as [dc'|]; [|done].
    apply elem_of_difference. split; [done|]. rewrite not_elem_of_singleton.
    intros ->. apply Hcb in Hid, Hid'. congruence.
  - destruct odc' as [dc'|]; [|done]. cbn.
    apply elem_of_difference. split; [done|]. rewrite not_elem_of_singleton.
    intros ->. apply Hcb in Hid, Hid'. congruence.
Qed.

(** *** Only [send_request] sends *)

Lemma sent_write_calls hd (l : list frame) :
  sent ((λ c, handler_call hd (RequestHandler.write c)) <$> l) = [].
Proof. by induction l. Qed.

Lemma forward_replies_sent hd (replies : list frame) h (s : ZMQApplicationProxy) :
  ∃ evs, history_of (forward_replies hd replies h s) = h ++ evs ∧ sent evs = [].
Proof.
  rewrite forward_replies_unfold.
  destruct (for_each_write_calls_prefix hd replies h s) as (_ & k & _ & Hh & _).
  cbv zeta in Hh.
  destruct (for_each replies _ h s) as [[[]|e] s1 h1]; cbn [history_of] in *; subst h1.
  - unfold external. cbn [history_of]. eexists. flatten_history. split; [done|].
    by rewrite sent_app, sent_write_calls.
  - eexists. split; [done|]. apply sent_write_calls.
Qed.

Lemma sent_stopped odc evs : sent (stopped odc ++ evs) = sent evs.
Proof. by destruct odc. Qed.

Lemma _handle_reply_sends_nothing msg_list h s :
  ∃ evs, history_of (_handle_reply msg_list h s) = h ++ evs ∧ sent evs = [].
Proof.
  destruct (decide (length msg_list < 2)) as [Hlen|Hlen].
  { destruct (_handle_reply_short msg_list h s Hlen) as [msg ->]. by eexists. }
  destruct msg_list as [|id [|tag rest]]; [simpl in Hlen; lia..|].
  destruct (_callbacks s !! id) as [[hd odc]|] eqn:Hid.
  2: { rewrite _handle_reply_unknown by done. by eexists. }
  destruct (proxy_cls s) eqn:Hcls.
  - rewrite (bulk_reply_unfold id (tag :: rest) h s hd odc) by done. cbv zeta.
    unfold try_except.
    match goal with
    | |- context [forward_replies hd ?l ?h1 ?s1] =>
        destruct (forward_replies_sent hd l h1 s1) as (evs & Hh & Hsent);
        destruct (forward_replies hd l h1 s1) as [[[]|e] s2 h2]
    end; cbn [history_of emit] in *; subst h2.
    + eexists. flatten_history. split; [done|]. cbn. by rewrite sent_stopped.
    + eexists. flatten_history. split; [done|]. cbn.
      by rewrite sent_stopped, sent_app, Hsent.
  - destruct (decide (tag = "FINISH")) as [->|Hfin].
    { rewrite (streaming_FINISH _ _ _ _ _ _ Hcls Hid). by eexists. }
    destruct (decide (tag = "DATA" ∧ length rest = 1)) as [[-> Hrest]|Hdata].
    + destruct rest as [|chunk [|]]; simplify_eq/=.
      rewrite (streaming_DATA _ _ _ _ _ _ Hcls Hid). cbv zeta.
      destruct (raises _); [|destruct (raises _)]; cbn [history_of].
      all: eexists; flatten_history; (split; [done|]); cbn; by rewrite sent_stopped.
    + rewrite (streaming_other _ _ _ _ _ _ _ Hcls Hid Hfin Hdata). by eexists.
Qed.

Lemma DelayedCallback_run_sends_nothing dc h s :
  ∃ evs, history_of (DelayedCallback_run dc h s) = h ++ evs ∧ sent evs = [].
Proof.
  destruct (decide (dc ∈ _running s)) as [Hrun|Hrun].
  2: { rewrite DelayedCallback_run_stopped by done. exists []. by rewrite app_nil_r. }
  destruct (delayed s !! dc) as [[hd id]|] eqn:Hdel.
  2: { unfold DelayedCallback_run. mstep. destruct (decide _); [|done].
       rewrite Hdel. exists []. by rewrite app_nil_r. }
  rewrite (DelayedCallback_run_running dc hd id h s Hrun Hdel).
  set (s1 := set_running s _).
  destruct (_callbacks s1 !! id) eqn:Hid.
  - rewrite (_handle_timeout_present _ _ _ _ _ Hid). destruct (raises _); by eexists.
  - rewrite (_handle_timeout_absent _ _ _ _ Hid). destruct (raises _); by eexists.
Qed.

(** X18. The proxy sends to the back end exactly one frame list per
    request whose dictionary [jsonapi.dumps] serialises, none for a request
    on which it raises, and none when a reply or a timeout is delivered. *)
Theorem proxy_sends_one_frame_list_per_request (evs : list loop_event) h s :
  ∃ new, (run evs h s).2 = h ++ new ∧
         length (sent new) = length (filter sends_request evs).
Proof.
  revert h s. induction evs as [|ev evs IH]; intros h s.
  { exists []. by rewrite app_nil_r. }
  cbn [run].
  assert (∃ evs1, history_of (deliver ev h s) = h ++ evs1 ∧
            length (sent evs1) = if sends_request ev then 1 else 0)
    as (evs1 & Hh & Hlen).
  { destruct ev as [request args kwargs hd timeout|msg_list|dc].
    - destruct (deliver_on_request request args kwargs hd timeout h s) as [_ ->].
      cbn [sends_request].
      destruct (dumps (PDict (request_dict request args kwargs)))
        as [json|e] eqn:Hjson.
      + destruct (send_request_sends request args kwargs hd timeout h s json Hjson)
          as (_ & evs1 & Hh1 & Hs1). exists evs1. by rewrite Hs1.
      + destruct (send_request_raises request args kwargs hd timeout h s e Hjson)
          as (_ & -> & _). exists []. by rewrite app_nil_r.
    - destruct (_handle_reply_sends_nothing msg_list h s) as (evs1 & Hh1 & Hs1).
      exists evs1. by rewrite Hs1.
    - destruct (DelayedCallback_run_sends_nothing dc h s) as (evs1 & Hh1 & Hs1).
      exists evs1. by rewrite Hs1. }
  rewrite Hh. destruct (IH (h ++ evs1) (self_of (deliver ev h s))) as (new & -> & Hnew).
  exists (evs1 ++ new). rewrite app_assoc. split; [done|].
  rewrite sent_app, length_app, Hlen, Hnew.
  destruct (sends_request ev) eqn:Hev.
  - rewrite filter_cons_True by (rewrite Hev; exact I). cbn. lia.
  - rewrite filter_cons_False by (rewrite Hev; cbn; tauto). cbn. lia.
Qed.
End isolation_properties.

Section handler_properties.
Context `{E : Externals}.

(** *** The front-end handler *)

Lemma HTTPError_is_Exception : is_Exception (Exception_ "HTTPError") = true.
Proof. by vm_compute. Qed.

(** X19. For a method outside [SUPPORTED_METHODS], [_execute] empties the
    transforms, raises [HTTPError] inside its own [try] statement and only
    logs it: [prepare] is not called, nothing is sent to the back end,
    nothing is registered and no exception escapes. *)
Theorem execute_unsupported_method_is_only_logged (self : ZMQRequestHandlerProxy)
    prepare args kwargs h s :
  httpserver.method (self_request self) ∉ SUPPORTED_METHODS →
  _execute self prepare args kwargs h s =
    Outcome (Ok tt) s
      (h ++ [handler_setattr (self_handler self) "_transforms";
             logging ERROR "Unexpected error in _execute"]).
Proof.
  intros Hm. unfold _execute. mstep.
  rewrite bool_decide_eq_false_2 by done. cbn [result_of self_of history_of].
  rewrite HTTPError_is_Exception. by rewrite <- app_assoc.
Qed.

(** X20. For a supported method, when [prepare] returns without having
    finished the request, [_execute] calls [send_request] with the
    handler's own request and timeout, after it emptied the transforms.
    When [jsonapi.dumps] serialises the request dictionary, [_execute]
    leaves the proxy and the events of [send_request], which sent one
    frame list and registered the handler, and returns [None]. When
    [jsonapi.dumps] raises, nothing is sent or registered, and the
    exception is caught and logged if it is an [Exception], and escapes
    otherwise. *)
Theorem execute_sends_the_request (self : ZMQRequestHandlerProxy) args kwargs h s :
  httpserver.method (self_request self) ∈ SUPPORTED_METHODS →
  let h1 := h ++ [handler_setattr (self_handler self) "_transforms"] in
  let sr := send_request (self_request self) args kwargs
              (self_handler self) (self_timeout self) h1 s in
  let id := uuid4 (uuid4_calls s) in
  match dumps (PDict (request_dict (self_request self) args kwargs)) with
  | Ok json =>
      _execute self (Ok false) args kwargs h s
        = Outcome (Ok tt) (self_of sr) (history_of sr) ∧
      (∃ evs, history_of sr = h1 ++ evs ∧
              sent evs = [encoded id json (self_request self)]) ∧
      (∃ odc, _callbacks (self_of sr) !! id = Some (self_handler self, odc))
  | Raise e =>
      _execute self (Ok false) args kwargs h s
        = (if is_Exception e
           then Outcome (Ok tt) (self_of sr)
                  (h1 ++ [logging ERROR "Unexpected error in _execute"])
           else Outcome (Raise e) (self_of sr) h1) ∧
      _callbacks (self_of sr) = _callbacks s
  end.
Proof.
  intros Hm. cbv zeta. unfold _execute. mstep.
  rewrite bool_decide_eq_true_2 by done. cbn [result_of self_of history_of].
  destruct (dumps _) as [json|e] eqn:Hjson.
  - destruct (send_request_sends (self_request self) args kwargs (self_handler self)
                (self_timeout self)
                (h ++ [handler_setattr (self_handler self) "_transforms"]) s json Hjson)
      as (Hres & Hsent).
    destruct (send_request_registers (self_request self) args kwargs
                (self_handler self) (self_timeout self)
                (h ++ [handler_setattr (self_handler self) "_transforms"]) s json Hjson)
      as (_ & _ & Hreg).
    cbv zeta in *.
    destruct (send_request _ _ _ _ _ _ s) as [res s1 h1].
    cbn [result_of self_of history_of] in *. subst res.
    split_and!; [done|done|].
    destruct (0 <? self_timeout self)%Z; destruct Hreg as (-> & _);
      eexists; apply lookup_insert_eq.
  - destruct (send_request_raises (self_request self) args kwargs (self_handler self)
                (self_timeout self)
                (h ++ [handler_setattr (self_handler self) "_transforms"]) s e Hjson)
      as (Hres & Hh & _ & Hcb & _).
    cbv zeta in *.
    destruct (send_request _ _ _ _ _ _ s) as [res s1 h1].
    cbn [result_of self_of history_of] in *. subst res h1.
    split; [|done]. by destruct (is_Exception e).
Qed.

(** X21. For a supported method, when [prepare] finished the request or
    raised, [_execute] sends nothing, registers nothing and leaves the
    proxy unchanged. It returns [None] when [prepare] returned; an
    [Exception] that [prepare] raised is caught and logged; an exception
    that is not an [Exception] escapes [_execute], unlogged. *)
Theorem execute_sends_nothing_otherwise (self : ZMQRequestHandlerProxy)
    prepare args kwargs h s :
  httpserver.method (self_request self) ∈ SUPPORTED_METHODS →
  prepare ≠ Ok false →
  let h1 := h ++ [handler_setattr (self_handler self) "_transforms"] in
  _execute self prepare args kwargs h s =
    match prepare with
    | Ok _ => Outcome (Ok tt) s h1
    | Raise e =>
        if is_Exception e
        then Outcome (Ok tt) s (h1 ++ [logging ERROR "Unexpected error in _execute"])
        else Outcome (Raise e) s h1
    end.
Proof.
  intros Hm Hp. cbv zeta. unfold _execute. mstep.
  rewrite bool_decide_eq_true_2 by done. cbn [result_of self_of history_of].
  destruct prepare as [[]|e]; [done|done|].
  cbn [result_of self_of history_of]. by destruct (is_Exception e).
Qed.

(** *** The back-end dispatch *)

Lemma first_match_Some handlers path spec :
  first_match handlers path = Some spec ↔
  ∃ l1 l2, handlers = l1 ++ spec :: l2 ∧ regex_match spec path = true ∧
           Forall (λ sp, regex_match sp path = false) l1.
Proof.
  induction handlers as [|sp handlers IH]; cbn.
  - split; [done|]. intros (l1 & l2 & Hl & _). by destruct l1.
  - destruct (regex_match sp path) eqn:Hsp.
    + split.
      * intros [= <-]. exists [], handlers. by repeat split.
      * intros (l1 & l2 & Hl & Hm & Hall). destruct l1 as [|sp' l1].
        -- by injection Hl as -> _.
        -- injection Hl as -> _. apply Forall_cons in Hall as [Hsp' _]. congruence.
    + rewrite IH. split.
      * intros (l1 & l2 & -> & Hm & Hall). exists (sp :: l1), l2.
        split_and!; [done|done|]. by constructor.
      * intros (l1 & l2 & Hl & Hm & Hall). destruct l1 as [|sp' l1].
        -- injection Hl as -> _. congruence.
        -- injection Hl as -> ->. apply Forall_cons in Hall as [_ Hall]. eauto.
Qed.

Lemma first_match_None handlers path :
  first_match handlers path = None ↔
  Forall (λ sp, regex_match sp path = false) handlers.
Proof.
  induction handlers as [|sp handlers IH]; cbn.
  { split; [intros _; constructor|done]. }
  destruct (regex_match sp path) eqn:Hsp.
  - split; [done|]. intros [Hsp' _]%Forall_cons. congruence.
  - rewrite IH. split; [by constructor|]. by intros [_ ?]%Forall_cons.
Qed.

(** X22. The handler [ZMQApplication.__call__] builds: that of the first
    spec, in the order of the list, whose regex matches the path; the 404
    error handler exactly when the list is not empty and no spec matches;
    the redirect to the default host exactly when there is no list, or an
    empty one. *)
Theorem call_takes_the_first_matching_spec default_host handlers path :
  (∀ spec, __call__handler default_host handlers path = spec_handler spec ↔
     ∃ l1 l2, handlers = Some (l1 ++ spec :: l2) ∧ regex_match spec path = true ∧
              Forall (λ sp, regex_match sp path = false) l1) ∧
  (__call__handler default_host handlers path = error_handler 404 ↔
     ∃ l, handlers = Some l ∧ l ≠ [] ∧ Forall (λ sp, regex_match sp path = false) l) ∧
  (__call__handler default_host handlers path
     = redirect_handler ("http://" +:+ default_host +:+ "/") ↔
     handlers = None ∨ handlers = Some []).
Proof.
  destruct handlers as [[|sp l]|]; cbn [__call__handler].
  - split_and!; [intros spec| |].
    + split; [done|]. intros (l1 & l2 & [= Hl] & _). by destruct l1.
    + split; [done|]. by intros (l & [= <-] & ? & _).
    + split; auto.
  - destruct (first_match (sp :: l) path) as [spec'|] eqn:Hfm.
    + apply first_match_Some in Hfm as Hspec. split_and!.
      * intros spec. split.
        -- intros [= <-]. destruct Hspec as (l1 & l2 & -> & ? & ?). eauto.
        -- intros (l1 & l2 & [= Hl] & Hm & Hall).
           assert (first_match (sp :: l) path = Some spec) as Hfm'
             by (apply first_match_Some; eauto).
           congruence.
      * split; [done|]. intros (l' & [= <-] & _ & Hall%first_match_None). congruence.
      * split; [done|]. by intros [|].
    + split_and!.
      * intros spec. split; [done|].
        intros (l1 & l2 & [= Hl] & Hm & Hall).
        assert (first_match (sp :: l) path = Some spec) as Hfm'
          by (apply first_match_Some; eauto).
        congruence.
      * split; [|done]. intros _. exists (sp :: l).
        split_and!; [done|done|by apply first_match_None].
      * split; [done|]. by intros [|].
  - split_and!; [intros spec| |].
    + split; [done|]. by intros (l1 & l2 & ? & _).
    + split; [done|]. by intros (l & ? & _).
    + split; auto.
Qed.
End handler_properties.

Section end_to_end_properties.
Context `{E : Externals}.

(** *** Streaming, back end and front end together *)

Lemma stripped_DATA (r : ZMQHTTPRequest) (ws : list (frame * option callback)) :
  (λ m, on_recv (drop (length (idents r)) m))
    <$> ((λ w, idents r ++ [msg_id r; "DATA"; w.1]) <$> ws)
  = (λ c, on_recv [msg_id r; "DATA"; c]) <$> ws.*1.
Proof.
  induction ws as [|w ws IH]; [done|].
  cbn [fmap list_fmap]. rewrite drop_app_length. f_equal. exact IH.
Qed.

(** What a streaming request sends over its writes and its finish. *)
Lemma streaming_sent (ws : list (frame * option callback)) h r :
  cls r = Streaming →
  ∃ evs, history_of ((for_each ws (λ w, write w.1 w.2) ;;; finish) h r) = h ++ evs ∧
         sent evs = ((λ w, idents r ++ [msg_id r; "DATA"; w.1]) <$> ws)
                      ++ [idents r ++ [msg_id r; "FINISH"]].
Proof.
  intros Hcls.
  destruct (streaming_writes ws h r Hcls) as (Hres & Hs & evs & Hh & Hsent & Hcb).
  cbv zeta in *. unfold bind.
  destruct (for_each ws _ h r) as [res r1 h1].
  cbn [result_of self_of history_of] in *. subst res r1 h1.
  unfold finish. mstep. rewrite Hcls.
  unfold ZMQStreamingHTTPRequest_finish, _create_msg_list. mstep.
  eexists. rewrite <- !app_assoc. split; [done|].
  rewrite sent_app, Hsent. cbn.
  by rewrite <- ?app_assoc, ?app_nil_r.
Qed.

(** X23. Back end and front end together, streaming: the frame lists a
    streaming request sends over its writes and its finish, delivered in
    order with the identity frames stripped, make the proxy pass the
    chunks to the handler in the order they were written, then finish it,
    and remove the pending entry. *)
Theorem streaming_reply_end_to_end (r : ZMQHTTPRequest)
    (ws : list (frame * option callback)) hb h (s : ZMQApplicationProxy) hd odc :
  cls r = Streaming →
  proxy_cls s = Streaming →
  _callbacks s !! msg_id r = Some (hd, odc) →
  ∃ evs,
    history_of ((for_each ws (λ w, write w.1 w.2) ;;; finish) hb r) = hb ++ evs ∧
    let replies := (λ m, on_recv (drop (length (idents r)) m)) <$> sent evs in
    let r' := run replies h s in
    _callbacks r'.1 !! msg_id r = None ∧
    ∃ evs', r'.2 = h ++ evs' ∧
            forwarded hd evs'
              = (RequestHandler.write <$> ws.*1) ++ [RequestHandler.finish].
Proof.
  intros Hcls Hpcls Hid.
  destruct (streaming_sent ws hb r Hcls) as (evs & Hh & Hsent).
  exists evs. split; [done|]. cbv zeta.
  rewrite Hsent, fmap_app, stripped_DATA. cbn [fmap list_fmap].
  rewrite drop_app_length, run_app.
  destruct (run_DATA (msg_id r) hd ws.*1 h s odc Hpcls Hid)
    as (Hc & [odc' Hl] & evs' & Hh' & Hfw').
  cbv zeta in *. cbn [run deliver fst snd]. rewrite Hh'.
  rewrite (streaming_FINISH _ [] _ _ _ _ Hc Hl). cbn [self_of history_of].
  split; [apply lookup_delete_eq|].
  eexists. rewrite <- ?app_assoc. split; [done|].
  rewrite forwarded_app, Hfw'.
  rewrite forwarded_cons_other by done. by rewrite forwarded_cons_call by done.
Qed.

(** *** The handler's timeout *)

(** X24. A handler initialised without a timeout, or with one that is
    not positive, never arms a timer: [_execute] creates no timer and
    starts none, and when [jsonapi.dumps] serialises the request it
    registers the handler without a timer; when [jsonapi.dumps] raises,
    nothing is registered. *)
Theorem execute_without_timeout_arms_no_timer hd request timeout args kwargs h s :
  httpserver.method request ∈ SUPPORTED_METHODS →
  (∀ t, timeout = Some t → (t ≤ 0)%Z) →
  let o := _execute (initialize hd request timeout) (Ok false) args kwargs h s in
  delayed (self_of o) = delayed s ∧
  _running (self_of o) = _running s ∧
  match dumps (PDict (request_dict request args kwargs)) with
  | Ok _ =>
      result_of o = Ok tt ∧
      _callbacks (self_of o) = <[uuid4 (uuid4_calls s) := (hd, None)]> (_callbacks s)
  | Raise _ => _callbacks (self_of o) = _callbacks s
  end.
Proof.
  intros Hm Ht. cbv zeta. unfold _execute. mstep.
  cbn [initialize self_request self_handler self_timeout].
  rewrite bool_decide_eq_true_2 by done. cbn [result_of self_of history_of].
  destruct (dumps _) as [json|e] eqn:Hjson.
  - pose proof (send_request_registers request args kwargs hd (default 0%Z timeout)
                  (h ++ [handler_setattr hd "_transforms"]) s json Hjson)
      as (Hres & _ & Hreg).
    assert ((0 <? default 0 timeout)%Z = false) as Hz.
    { apply Z.ltb_ge. destruct timeout as [t|]; cbn; [by apply Ht|lia]. }
    rewrite Hz in Hreg.
    destruct (send_request _ _ _ _ _ _ s) as [res s1 h1].
    cbn [result_of self_of history_of] in *. subst res.
    by destruct Hreg as (? & ? & ?).
  - destruct (send_request_raises request args kwargs hd (default 0%Z timeout)
                (h ++ [handler_setattr hd "_transforms"]) s e Hjson)
      as (Hres & _ & _ & Hcb & Hd & Hr & _).
    cbv zeta in *.
    destruct (send_request _ _ _ _ _ _ s) as [res s1 h1].
    cbn [result_of self_of history_of] in *. subst res.
    by destruct (is_Exception e).
Qed.
End end_to_end_properties.

(** ** The theorems at the sample objects *)

Lemma handle_request_no_delimiter_escapes_witness :
  4 ≤ length ["a"; "b"; "c"; "d"] ∧
  ("|" ∉ ["a"; "b"; "c"; "d"]) ∧
  @_handle_request (sample_externals false) ["a"; "b"; "c"; "d"] [] sample_application =
    Outcome (Raise ValueError) sample_application
      ([] ++ [ logging DEBUG "Handling request: %r" ]).
Proof.
  assert (H1 : 4 ≤ length ["a"; "b"; "c"; "d"]) by (simpl; lia).
  assert (H2 : "|" ∉ ["a"; "b"; "c"; "d"])
    by (apply (bool_decide_unpack _); vm_compute; exact I).
  split_and!; [exact H1|exact H2|].
  exact (@handle_request_no_delimiter_escapes (sample_externals false)
           ["a"; "b"; "c"; "d"] [] sample_application H1 H2).
Defined.

Lemma replies_begin_with_idents_and_msg_id_witness :
  result_of (@_parse_request (sample_externals false)
               ["peer-1"; "|"; "0"; sample_json] [] sample_application)
    = Ok (sample_decoded, PList [], PDict []) ∧
  ∃ P I rest,
    ["peer-1"; "|"; "0"; sample_json] = P ++ "|" :: I :: rest ∧ ("|" ∉ P) ∧
    idents sample_decoded = P ∧ msg_id sample_decoded = I ∧
    ∃ evs, history_of (for_each [call_write "ok" None; call_finish]
                         (@perform (sample_externals false)) [] sample_decoded)
             = [] ++ evs ∧
           Forall (begins_with P I) (sent evs).
Proof.
  assert (H : result_of (@_parse_request (sample_externals false)
                ["peer-1"; "|"; "0"; sample_json] [] sample_application)
              = Ok (sample_decoded, PList [], PDict [])) by (vm_compute; reflexivity).
  split; [exact H|].
  exact (@replies_begin_with_idents_and_msg_id (sample_externals false)
           ["peer-1"; "|"; "0"; sample_json] [] sample_application
           sample_decoded (PList []) (PDict [])
           [call_write "ok" None; call_finish] [] H).
Defined.

(** C5, as stated, fails: with an empty body and no identity frame in front,
    what [send_request] sends has three frames, and [_parse_request] raises
    [IndexError] on fewer than four. *)
Lemma roundtrip_fails_without_identity_and_body :
  httpserver.body sample_request = "" ∧
  sent (history_of (@send_request (sample_externals false) sample_request [] [] 7 0 []
                      (ZMQApplicationProxy__init__ Bulk)))
    = [["|"; "0"; sample_json]] ∧
  result_of (@_parse_request (sample_externals false) ["|"; "0"; sample_json] []
               sample_application)
    = Raise IndexError.
Proof. split_and!; vm_compute; reflexivity. Qed.

Lemma send_request_then_parse_request_witness :
  ("|" ∉ ["peer-1"]) ∧
  (["peer-1"] ≠ [] ∨ httpserver.body sample_request ≠ "") ∧
  result_bind
    (@dumps (sample_externals false) (PDict (request_dict sample_request [] [])))
    (@loads (sample_externals false))
    = Ok (PDict (request_dict sample_request [] [])) ∧
  (∃ pq, result_bind
           (@native_str (sample_externals false) (PStr (httpserver.uri sample_request)))
           (@urlsplit (sample_externals false)) = Ok pq) ∧
  ∃ id json evs msg_list,
    @dumps (sample_externals false) (PDict (request_dict sample_request [] []))
      = Ok json ∧
    result_of (@send_request (sample_externals false) sample_request [] [] 7 0 []
                 (ZMQApplicationProxy__init__ Bulk)) = Ok id ∧
    history_of (@send_request (sample_externals false) sample_request [] [] 7 0 []
                  (ZMQApplicationProxy__init__ Bulk)) = [] ++ evs ∧
    sent evs = [msg_list] ∧
    take 3 msg_list = ["|"; id; json] ∧
    (drop 3 msg_list = [httpserver.body sample_request]
       ∧ httpserver.body sample_request ≠ "" ∨
     drop 3 msg_list = [] ∧ httpserver.body sample_request = "") ∧
    ∃ r, result_of (@_parse_request (sample_externals false) (["peer-1"] ++ msg_list) []
                      sample_application)
           = Ok (r, PList [], PDict []) ∧
         reproduces sample_request r ∧
         body r = httpserver.body sample_request ∧ idents r = ["peer-1"] ∧ msg_id r = id.
Proof.
  assert (H1 : "|" ∉ ["peer-1"])
    by (apply (bool_decide_unpack _); vm_compute; exact I).
  assert (H2 : ["peer-1"] ≠ [] ∨ httpserver.body sample_request ≠ "")
    by (left; discriminate).
  assert (H3 : result_bind
                 (@dumps (sample_externals false)
                    (PDict (request_dict sample_request [] [])))
                 (@loads (sample_externals false))
               = Ok (PDict (request_dict sample_request [] [])))
    by (vm_compute; reflexivity).
  assert (H4 : ∃ pq, result_bind
                 (@native_str (sample_externals false)
                    (PStr (httpserver.uri sample_request)))
                 (@urlsplit (sample_externals false)) = Ok pq)
    by (eexists; vm_compute; reflexivity).
  split_and!; [exact H1|exact H2|exact H3|exact H4|].
  exact (@send_request_then_parse_request (sample_externals false) sample_request [] []
           7 0 [] (ZMQApplicationProxy__init__ Bulk) ["peer-1"] [] sample_application
           H1 H2 H3 H4).
Defined.

Lemma reply_dropped_witness :
  (length ["9"; "late"] < 2 ∨
   ∃ id, head ["9"; "late"] = Some id ∧ _callbacks (sample_proxy Bulk) !! id = None) ∧
  result_of (@_handle_reply (sample_externals false) ["9"; "late"] [] (sample_proxy Bulk))
    = Ok tt ∧
  self_of (@_handle_reply (sample_externals false) ["9"; "late"] [] (sample_proxy Bulk))
    = sample_proxy Bulk ∧
  ∃ evs, history_of (@_handle_reply (sample_externals false) ["9"; "late"] []
                       (sample_proxy Bulk)) = [] ++ evs ∧
         Forall is_logging evs.
Proof.
  assert (H : length ["9"; "late"] < 2 ∨
              ∃ id, head ["9"; "late"] = Some id ∧
                    _callbacks (sample_proxy Bulk) !! id = None)
    by (right; exists "9"; split; vm_compute; reflexivity).
  split; [exact H|].
  exact (@reply_dropped (sample_externals false) ["9"; "late"] [] (sample_proxy Bulk) H).
Defined.

Lemma bulk_reply_removes_entry_first_witness :
  proxy_cls (sample_proxy Bulk) = Bulk ∧
  ["ok"] ≠ [] ∧
  _callbacks (sample_proxy Bulk) !! "0" = Some (7, Some 0) ∧
  let o := @_handle_reply (sample_externals true) ("0" :: ["ok"]) [] (sample_proxy Bulk) in
  result_of o = Ok tt ∧
  _callbacks (self_of o) = delete "0" (_callbacks (sample_proxy Bulk)) ∧
  (∀ dc, Some 0 = Some dc → dc ∉ _running (self_of o)) ∧
  (∃ evs, history_of o =
            [] ++ logging DEBUG "Handling reply: %r" :: stopped (Some 0) ++ evs) ∧
  (∀ h2, @_handle_reply (sample_externals true) ("0" :: ["ok"]) h2 (self_of o) =
           Outcome (Ok tt) (self_of o) (h2 ++ [logging DEBUG "Handling reply: %r"])) ∧
  (∀ dc h2, Some 0 = Some dc →
     @DelayedCallback_run (sample_externals true) dc h2 (self_of o)
       = Outcome (Ok tt) (self_of o) h2) ∧
  (∀ h2, result_of (callbacks_pop "0" h2 (self_of o)) = Raise KeyError).
Proof.
  assert (H1 : proxy_cls (sample_proxy Bulk) = Bulk) by reflexivity.
  assert (H2 : ["ok"] ≠ []) by discriminate.
  assert (H3 : _callbacks (sample_proxy Bulk) !! "0" = Some (7, Some 0))
    by (vm_compute; reflexivity).
  split_and!; [exact H1|exact H2|exact H3|].
  exact (@bulk_reply_removes_entry_first (sample_externals true) "0" ["ok"] []
           (sample_proxy Bulk) 7 (Some 0) H1 H2 H3).
Defined.



Lemma streaming_handler_exception_escapes_witness :
  proxy_cls (sample_proxy Streaming) = Streaming ∧
  _callbacks (sample_proxy Streaming) !! "0" = Some (7, Some 0) ∧
  @raises (sample_externals true)
    ([] ++ logging DEBUG "Handling reply: %r" :: stopped (Some 0)
        ++ [handler_call 7 (RequestHandler.write "a")]) = Some socket_error ∧
  result_of (@_handle_reply (sample_externals true) ["0"; "DATA"; "a"] []
               (sample_proxy Streaming)) = Raise NameError.
Proof.
  assert (H1 : proxy_cls (sample_proxy Streaming) = Streaming) by reflexivity.
  assert (H2 : _callbacks (sample_proxy Streaming) !! "0" = Some (7, Some 0))
    by (vm_compute; reflexivity).
  assert (H3 : @raises (sample_externals true)
                 ([] ++ logging DEBUG "Handling reply: %r" :: stopped (Some 0)
                     ++ [handler_call 7 (RequestHandler.write "a")])
               = Some socket_error) by reflexivity.
  split_and!; [exact H1|exact H2|exact H3|].
  exact (@streaming_handler_exception_escapes (sample_externals true) "0" "a" []
           (sample_proxy Streaming) 7 (Some 0) socket_error H1 H2 H3).
Defined.

Lemma streaming_chunks_then_FINISH_witness :
  proxy_cls (sample_proxy Streaming) = Streaming ∧
  _callbacks (sample_proxy Streaming) !! "0" = Some (7, Some 0) ∧
  let r1 := @run (sample_externals false) [on_recv ["0"; "DATA"; "a"]] []
              (sample_proxy Streaming) in
  let r2 := @run (sample_externals false)
              (((λ c, on_recv ["0"; "DATA"; c]) <$> ["b"])
                 ++ [on_recv ["0"; "FINISH"]]) r1.2 r1.1 in
  (_callbacks r1.1 !! "0" = Some (7, None) ∧
   ∀ dc, Some 0 = Some dc →
     (dc ∉ _running r1.1) ∧ ∃ evs, r1.2 = [] ++ evs ∧ dc_stop dc ∈ evs) ∧
  _callbacks r2.1 !! "0" = None ∧
  ∃ evs, r2.2 = [] ++ evs ∧
         forwarded 7 evs =
           (RequestHandler.write <$> "a" :: ["b"]) ++ [RequestHandler.finish].
Proof.
  assert (H1 : proxy_cls (sample_proxy Streaming) = Streaming) by reflexivity.
  assert (H2 : _callbacks (sample_proxy Streaming) !! "0" = Some (7, Some 0))
    by (vm_compute; reflexivity).
  split_and!; [exact H1|exact H2|].
  exact (@streaming_chunks_then_FINISH (sample_externals false) "0" 7 (Some 0) "a" ["b"]
           [] (sample_proxy Streaming) H1 H2).
Defined.

Lemma timeout_after_FINISH_sends_504_witness :
  proxy_cls (ZMQApplicationProxy__init__ Streaming) = Streaming ∧
  (0 < 5000)%Z ∧
  @dumps (sample_externals false) (PDict (request_dict sample_request [] []))
    = Ok sample_json ∧
  let r := @run (sample_externals false)
             [on_request sample_request [] [] 7 5000; on_recv ["0"; "FINISH"]] []
             (ZMQApplicationProxy__init__ Streaming) in
  let o := @DelayedCallback_run (sample_externals false) 0 r.2 r.1 in
  _callbacks r.1 !! "0" = None ∧
  0 ∈ _running r.1 ∧
  (∃ evs, r.2 = [] ++ evs ∧ handler_call 7 RequestHandler.finish ∈ evs) ∧
  ∃ evs, history_of o = r.2 ++ call_send_error 7 :: evs.
Proof.
  assert (H1 : proxy_cls (ZMQApplicationProxy__init__ Streaming) = Streaming)
    by reflexivity.
  assert (H2 : (0 < 5000)%Z) by lia.
  assert (H3 : @dumps (sample_externals false)
                 (PDict (request_dict sample_request [] [])) = Ok sample_json)
    by reflexivity.
  split_and!; [exact H1|exact H2|exact H3|].
  exact (@timeout_after_FINISH_sends_504 (sample_externals false) sample_request [] []
           7 5000 [] (ZMQApplicationProxy__init__ Streaming) sample_json H1 H2 H3).
Defined.


(** ** The further properties at the sample objects *)

Lemma sample_externals_quiet h : @quiet_after (sample_externals false) h.
Proof.
  intros evs. cbn. destruct (last (h ++ evs)) as [[| |hd []| | | | |]|]; done.
Qed.

Lemma handle_request_absorbs_only_IndexError_witness :
  result_of (@_parse_request (sample_externals false)
               ["peer-1"; "|"; "0"; "not json"] [] sample_application)
    = Raise ValueError ∧
  @_handle_request (sample_externals false) ["peer-1"; "|"; "0"; "not json"] []
      sample_application
    = Outcome (Raise ValueError) sample_application
        ([] ++ [ logging DEBUG "Handling request: %r" ]).
Proof.
  assert (H : result_of (@_parse_request (sample_externals false)
                ["peer-1"; "|"; "0"; "not json"] [] sample_application)
              = Raise ValueError) by (vm_compute; reflexivity).
  split; [exact H|].
  exact (@handle_request_absorbs_only_IndexError (sample_externals false)
           ["peer-1"; "|"; "0"; "not json"] [] sample_application ValueError H).
Defined.

Lemma handle_request_dispatches_once_witness :
  result_of (@_parse_request (sample_externals false)
               ["peer-1"; "|"; "0"; sample_json] [] sample_application)
    = Ok (sample_decoded, PList [], PDict []) ∧
  @_handle_request (sample_externals false) ["peer-1"; "|"; "0"; sample_json] []
      sample_application
    = Outcome (Ok tt) sample_application
        ([] ++ [ logging DEBUG "Handling request: %r";
                 application_call sample_decoded (PList []) (PDict []) ]).
Proof.
  assert (H : result_of (@_parse_request (sample_externals false)
                ["peer-1"; "|"; "0"; sample_json] [] sample_application)
              = Ok (sample_decoded, PList [], PDict [])) by (vm_compute; reflexivity).
  split; [exact H|].
  exact (@handle_request_dispatches_once (sample_externals false)
           ["peer-1"; "|"; "0"; sample_json] [] sample_application
           sample_decoded (PList []) (PDict []) H).
Defined.

Lemma handle_request_truncated_after_delimiter_witness :
  ("|" ∉ ["peer-1"; "peer-2"]) ∧
  length ["0"] < 2 ∧
  @_handle_request (sample_externals false) (["peer-1"; "peer-2"] ++ "|" :: ["0"]) []
      sample_application
    = Outcome (Ok tt) sample_application
        ([] ++ [ logging DEBUG "Handling request: %r";
                 logging ERROR
                   "Unexpected request message format in ZMQApplication._handle_request." ]).
Proof.
  assert (H1 : "|" ∉ ["peer-1"; "peer-2"])
    by (apply (bool_decide_unpack _); vm_compute; exact I).
  assert (H2 : length ["0"] < 2) by (simpl; lia).
  split_and!; [exact H1|exact H2|].
  exact (@handle_request_truncated_after_delimiter (sample_externals false)
           ["peer-1"; "peer-2"] ["0"] [] sample_application H1 H2).
Defined.

Lemma parse_request_body_only_when_last_witness :
  ("|" ∉ ["peer-1"]) ∧
  result_of (@_parse_request (sample_externals false)
               (["peer-1"] ++ "|" :: "0" :: sample_json :: ["body"; "extra"]) []
               sample_application)
    = Ok (sample_decoded, PList [], PDict []) ∧
  body sample_decoded = "".
Proof.
  assert (H1 : "|" ∉ ["peer-1"])
    by (apply (bool_decide_unpack _); vm_compute; exact I).
  assert (H2 : result_of (@_parse_request (sample_externals false)
                 (["peer-1"] ++ "|" :: "0" :: sample_json :: ["body"; "extra"]) []
                 sample_application)
               = Ok (sample_decoded, PList [], PDict [])) by (vm_compute; reflexivity).
  split_and!; [exact H1|exact H2|].
  exact (@parse_request_body_only_when_last (sample_externals false)
           ["peer-1"] "0" sample_json ["body"; "extra"] [] sample_application
           sample_decoded (PList []) (PDict []) H1 H2).
Defined.

Lemma bulk_request_sends_once_at_finish_witness :
  cls sample_decoded = Bulk ∧
  ∃ evs, history_of ((for_each [("a", None); ("b", Some 3)]
                        (λ w, @write (sample_externals false) w.1 w.2) ;;; @finish (sample_externals false))
                       [] sample_decoded) = [] ++ evs ∧
         sent evs = [["peer-1"; "0"; "a"; "b"]].
Proof.
  assert (H : cls sample_decoded = Bulk) by reflexivity.
  split; [exact H|].
  exact (proj1 (proj2 (proj2
           (@bulk_request_sends_once_at_finish (sample_externals false)
              [("a", None); ("b", Some 3)] [] sample_decoded H)))).
Defined.

Lemma bulk_request_calls_last_callback_witness :
  cls sample_decoded = Bulk ∧
  ∃ evs1 msg_list evs2,
    history_of ((for_each [("a", Some 1); ("b", Some 2); ("c", None)]
                   (λ w, @write (sample_externals false) w.1 w.2) ;;; @finish (sample_externals false))
                  [] sample_decoded)
      = [] ++ evs1 ++ send_multipart msg_list :: evs2 ∧
    callback_calls evs1 = [] ∧
    callback_calls evs2 = [2].
Proof.
  assert (H : cls sample_decoded = Bulk) by reflexivity.
  split; [exact H|].
  exact (@bulk_request_calls_last_callback (sample_externals false)
           [("a", Some 1); ("b", Some 2); ("c", None)] [] sample_decoded H).
Defined.

Lemma streaming_request_sends_each_write_witness :
  cls sample_streaming = Streaming ∧
  ∃ evs, history_of ((for_each [("a", Some 1); ("b", None)]
                        (λ w, @write (sample_externals false) w.1 w.2) ;;; @finish (sample_externals false))
                       [] sample_streaming) = [] ++ evs ∧
         sent evs = [["peer-1"; "0"; "DATA"; "a"]; ["peer-1"; "0"; "DATA"; "b"];
                     ["peer-1"; "0"; "FINISH"]] ∧
         callback_calls evs = [1].
Proof.
  assert (H : cls sample_streaming = Streaming) by reflexivity.
  split; [exact H|].
  exact (proj2 (proj2
           (@streaming_request_sends_each_write (sample_externals false)
              [("a", Some 1); ("b", None)] [] sample_streaming H))).
Defined.

Lemma bulk_reply_forwards_everything_witness :
  proxy_cls (sample_proxy Bulk) = Bulk ∧
  ["a"; "b"] ≠ [] ∧
  _callbacks (sample_proxy Bulk) !! "0" = Some (7, Some 0) ∧
  @quiet_after (sample_externals false) [] ∧
  history_of (@_handle_reply (sample_externals false) ("0" :: ["a"; "b"]) []
                (sample_proxy Bulk))
    = [] ++ logging DEBUG "Handling reply: %r" :: stopped (Some 0)
         ++ forwarding 7 ["a"; "b"].
Proof.
  assert (H1 : proxy_cls (sample_proxy Bulk) = Bulk) by reflexivity.
  assert (H2 : ["a"; "b"] ≠ []) by discriminate.
  assert (H3 : _callbacks (sample_proxy Bulk) !! "0" = Some (7, Some 0))
    by (vm_compute; reflexivity).
  assert (H4 : @quiet_after (sample_externals false) [])
    by apply sample_externals_quiet.
  split_and!; [exact H1|exact H2|exact H3|exact H4|].
  exact (proj2 (@bulk_reply_forwards_everything (sample_externals false) "0"
                  ["a"; "b"] [] (sample_proxy Bulk) 7 (Some 0) H1 H2 H3 H4)).
Defined.


Lemma empty_bulk_reply_is_dropped_witness :
  cls sample_decoded = Bulk ∧
  _chunks sample_decoded = [] ∧
  self_of (@_handle_reply (sample_externals false)
             (drop (length (idents sample_decoded))
                (idents sample_decoded ++ [msg_id sample_decoded])) []
             (sample_proxy Bulk))
    = sample_proxy Bulk.
Proof.
  assert (H1 : cls sample_decoded = Bulk) by reflexivity.
  assert (H2 : _chunks sample_decoded = []) by reflexivity.
  split_and!; [exact H1|exact H2|].
  exact (proj1 (proj2 (proj2
           (@empty_bulk_reply_is_dropped (sample_externals false) sample_decoded []
              [] (sample_proxy Bulk) H1 H2)))).
Defined.

Lemma bulk_reply_end_to_end_witness :
  cls sample_buffered = Bulk ∧
  _chunks sample_buffered ≠ [] ∧
  proxy_cls (sample_proxy Bulk) = Bulk ∧
  _callbacks (sample_proxy Bulk) !! msg_id sample_buffered = Some (7, Some 0) ∧
  @quiet_after (sample_externals false) [] ∧
  ∃ msg_list evs,
    history_of (@finish (sample_externals false) [] sample_buffered) = [] ++ evs ∧
    sent evs = [msg_list] ∧
    let o := @_handle_reply (sample_externals false)
               (drop (length (idents sample_buffered)) msg_list) []
               (sample_proxy Bulk) in
    result_of o = Ok tt ∧
    _callbacks (self_of o) !! msg_id sample_buffered = None ∧
    ∃ evs', history_of o = [] ++ evs' ∧
            forwarded 7 evs' = (RequestHandler.write <$> _chunks sample_buffered)
                                 ++ [RequestHandler.finish].
Proof.
  assert (H1 : cls sample_buffered = Bulk) by reflexivity.
  assert (H2 : _chunks sample_buffered ≠ []) by discriminate.
  assert (H3 : proxy_cls (sample_proxy Bulk) = Bulk) by reflexivity.
  assert (H4 : _callbacks (sample_proxy Bulk) !! msg_id sample_buffered
               = Some (7, Some 0)) by (vm_compute; reflexivity).
  assert (H5 : @quiet_after (sample_externals false) [])
    by apply sample_externals_quiet.
  split_and!; [exact H1|exact H2|exact H3|exact H4|exact H5|].
  exact (@bulk_reply_end_to_end (sample_externals false) sample_buffered [] []
           (sample_proxy Bulk) 7 (Some 0) H1 H2 H3 H4 H5).
Defined.

Lemma streaming_reply_end_to_end_witness :
  cls sample_streaming = Streaming ∧
  proxy_cls (sample_proxy Streaming) = Streaming ∧
  _callbacks (sample_proxy Streaming) !! msg_id sample_streaming = Some (7, Some 0) ∧
  ∃ evs,
    history_of ((for_each [("a", None); ("b", None)]
                   (λ w, @write (sample_externals false) w.1 w.2) ;;; @finish (sample_externals false))
                  [] sample_streaming) = [] ++ evs ∧
    let replies := (λ m, on_recv (drop (length (idents sample_streaming)) m))
                     <$> sent evs in
    let r' := @run (sample_externals false) replies [] (sample_proxy Streaming) in
    _callbacks r'.1 !! msg_id sample_streaming = None ∧
    ∃ evs', r'.2 = [] ++ evs' ∧
            forwarded 7 evs'
              = (RequestHandler.write <$> ["a"; "b"]) ++ [RequestHandler.finish].
Proof.
  assert (H1 : cls sample_streaming = Streaming) by reflexivity.
  assert (H2 : proxy_cls (sample_proxy Streaming) = Streaming) by reflexivity.
  assert (H3 : _callbacks (sample_proxy Streaming) !! msg_id sample_streaming
               = Some (7, Some 0)) by (vm_compute; reflexivity).
  split_and!; [exact H1|exact H2|exact H3|].
  exact (@streaming_reply_end_to_end (sample_externals false) sample_streaming
           [("a", None); ("b", None)] [] [] (sample_proxy Streaming) 7 (Some 0)
           H1 H2 H3).
Defined.

Lemma timeout_fires_on_pending_request_witness :
  0 ∈ _running (sample_proxy Bulk) ∧
  delayed (sample_proxy Bulk) !! 0 = Some (7, "0") ∧
  _callbacks (sample_proxy Bulk) !! "0" = Some (7, Some 0) ∧
  @raises (sample_externals false) ([] ++ [call_send_error 7]) = None ∧
  history_of (@DelayedCallback_run (sample_externals false) 0 [] (sample_proxy Bulk))
    = [] ++ [call_send_error 7].
Proof.
  assert (H1 : 0 ∈ _running (sample_proxy Bulk))
    by (apply (bool_decide_unpack _); vm_compute; exact I).
  assert (H2 : delayed (sample_proxy Bulk) !! 0 = Some (7, "0")) by reflexivity.
  assert (H3 : _callbacks (sample_proxy Bulk) !! "0" = Some (7, Some 0))
    by (vm_compute; reflexivity).
  assert (H4 : @raises (sample_externals false) ([] ++ [call_send_error 7]) = None)
    by reflexivity.
  split_and!; [exact H1|exact H2|exact H3|exact H4|].
  exact (proj1 (proj2
           (@timeout_fires_on_pending_request (sample_externals false) 0 7 "0"
              (7, Some 0) [] (sample_proxy Bulk) H1 H2 H3 H4))).
Defined.

Lemma timeout_send_error_raises_keeps_entry_witness :
  0 ∈ _running (sample_proxy Bulk) ∧
  delayed (sample_proxy Bulk) !! 0 = Some (7, "0") ∧
  @raises closed_externals ([] ++ [call_send_error 7]) = Some (Exception_ "IOError") ∧
  let o := @DelayedCallback_run closed_externals 0 [] (sample_proxy Bulk) in
  result_of o = Raise (Exception_ "IOError") ∧
  history_of o = [] ++ [call_send_error 7] ∧
  _callbacks (self_of o) = _callbacks (sample_proxy Bulk) ∧
  _running (self_of o) = _running (sample_proxy Bulk) ∖ {[0]} ∧
  (∀ h2, @DelayedCallback_run closed_externals 0 h2 (self_of o)
           = Outcome (Ok tt) (self_of o) h2).
Proof.
  assert (H1 : 0 ∈ _running (sample_proxy Bulk))
    by (apply (bool_decide_unpack _); vm_compute; exact I).
  assert (H2 : delayed (sample_proxy Bulk) !! 0 = Some (7, "0")) by reflexivity.
  assert (H3 : @raises closed_externals ([] ++ [call_send_error 7])
               = Some (Exception_ "IOError")) by reflexivity.
  split_and!; [exact H1|exact H2|exact H3|].
  exact (@timeout_send_error_raises_keeps_entry closed_externals 0 7 "0" []
           (sample_proxy Bulk) (Exception_ "IOError") H1 H2 H3).
Defined.

Lemma send_request_never_overwrites_witness :
  Inj (=) (=) (@uuid4 (sample_externals false)) ∧
  let r := @run (sample_externals false)
             [on_request sample_request [] [] 7 5000; on_recv ["0"; "ok"];
              on_request sample_request [] [] 8 5000] []
             (ZMQApplicationProxy__init__ Bulk) in
  let o := @send_request (sample_externals false) sample_request [] [] 9 0 r.2 r.1 in
  (@uuid4 (sample_externals false) (uuid4_calls r.1) ∉ dom (_callbacks r.1)) ∧
  (∀ id, id ≠ @uuid4 (sample_externals false) (uuid4_calls r.1) →
         _callbacks (self_of o) !! id = _callbacks r.1 !! id) ∧
  match result_of o with
  | Ok id =>
      id = @uuid4 (sample_externals false) (uuid4_calls r.1) ∧
      (∃ odc, _callbacks (self_of o) !! id = Some (9, odc)) ∧
      size (_callbacks (self_of o)) = S (size (_callbacks r.1))
  | Raise _ => _callbacks (self_of o) = _callbacks r.1
  end.
Proof.
  assert (H : Inj (=) (=) (@uuid4 (sample_externals false)))
    by (intros x y Hxy; exact (pretty_nat_inj x y Hxy)).
  split; [exact H|].
  exact (@send_request_never_overwrites (sample_externals false) Bulk
           [on_request sample_request [] [] 7 5000; on_recv ["0"; "ok"];
            on_request sample_request [] [] 8 5000]
           sample_request [] [] 9 0 H).
Defined.

Lemma reply_leaves_other_requests_alone_witness :
  @consistent (sample_externals false) sample_two_pending ∧
  "1" ≠ "0" ∧
  _callbacks sample_two_pending !! "0" = Some (7, Some 0) ∧
  0 ∈ _running sample_two_pending ∧
  let s' := self_of (@_handle_reply (sample_externals false) ("1" :: ["ok"]) []
                       sample_two_pending) in
  _callbacks s' !! "0" = Some (7, Some 0) ∧
  0 ∈ _running s' ∧
  delayed s' !! 0 = Some (7, "0").
Proof.
  assert (H1 : @consistent (sample_externals false) sample_two_pending)
    by (apply run_consistent, consistent_init).
  assert (H2 : "1" ≠ "0") by discriminate.
  assert (H3 : _callbacks sample_two_pending !! "0" = Some (7, Some 0))
    by (vm_compute; reflexivity).
  assert (H4 : 0 ∈ _running sample_two_pending)
    by (apply (bool_decide_unpack _); vm_compute; exact I).
  split_and!; [exact H1|exact H2|exact H3|exact H4|].
  exact (@reply_leaves_other_requests_alone (sample_externals false) "0" "1" ["ok"]
           [] sample_two_pending 7 0 H1 H2 H3 H4).
Defined.

Lemma execute_unsupported_method_is_only_logged_witness :
  (httpserver.method (self_request (initialize 7 sample_patch_request (Some 5000%Z)))
     ∉ SUPPORTED_METHODS) ∧
  @_execute (sample_externals false) (initialize 7 sample_patch_request (Some 5000%Z))
      (Ok false) [] [] [] (ZMQApplicationProxy__init__ Bulk)
    = Outcome (Ok tt) (ZMQApplicationProxy__init__ Bulk)
        ([] ++ [handler_setattr 7 "_transforms";
                logging ERROR "Unexpected error in _execute"]).
Proof.
  assert (H : httpserver.method
                (self_request (initialize 7 sample_patch_request (Some 5000%Z)))
              ∉ SUPPORTED_METHODS)
    by (apply (bool_decide_unpack _); vm_compute; exact I).
  split; [exact H|].
  exact (@execute_unsupported_method_is_only_logged (sample_externals false)
           (initialize 7 sample_patch_request (Some 5000%Z)) (Ok false) [] [] []
           (ZMQApplicationProxy__init__ Bulk) H).
Defined.

Lemma execute_sends_the_request_witness :
  httpserver.method (self_request (initialize 7 sample_request (Some 5000%Z)))
    ∈ SUPPORTED_METHODS ∧
  @_execute unserialisable_externals (initialize 7 sample_request (Some 5000%Z))
      (Ok false) [] [] [] (ZMQApplicationProxy__init__ Bulk)
    = Outcome (Ok tt)
        (self_of (@send_request unserialisable_externals sample_request [] [] 7 5000
                    ([] ++ [handler_setattr 7 "_transforms"])
                    (ZMQApplicationProxy__init__ Bulk)))
        (([] ++ [handler_setattr 7 "_transforms"])
           ++ [logging ERROR "Unexpected error in _execute"]) ∧
  _callbacks (self_of (@send_request unserialisable_externals sample_request [] [] 7
                         5000 ([] ++ [handler_setattr 7 "_transforms"])
                         (ZMQApplicationProxy__init__ Bulk)))
    = _callbacks (ZMQApplicationProxy__init__ Bulk).
Proof.
  assert (H : httpserver.method
                (self_request (initialize 7 sample_request (Some 5000%Z)))
              ∈ SUPPORTED_METHODS)
    by (apply (bool_decide_unpack _); vm_compute; exact I).
  split; [exact H|].
  exact (@execute_sends_the_request unserialisable_externals
           (initialize 7 sample_request (Some 5000%Z)) [] [] []
           (ZMQApplicationProxy__init__ Bulk) H).
Defined.

Lemma execute_sends_nothing_otherwise_witness :
  httpserver.method (self_request (initialize 7 sample_request None))
    ∈ SUPPORTED_METHODS ∧
  (Raise (Exception_ "KeyboardInterrupt") : result bool) ≠ Ok false ∧
  @_execute (sample_externals false) (initialize 7 sample_request None)
      (Raise (Exception_ "KeyboardInterrupt")) [] [] []
      (ZMQApplicationProxy__init__ Bulk)
    = Outcome (Raise (Exception_ "KeyboardInterrupt"))
        (ZMQApplicationProxy__init__ Bulk)
        ([] ++ [handler_setattr 7 "_transforms"]).
Proof.
  assert (H1 : httpserver.method (self_request (initialize 7 sample_request None))
               ∈ SUPPORTED_METHODS)
    by (apply (bool_decide_unpack _); vm_compute; exact I).
  assert (H2 : (Raise (Exception_ "KeyboardInterrupt") : result bool) ≠ Ok false)
    by discriminate.
  split_and!; [exact H1|exact H2|].
  exact (@execute_sends_nothing_otherwise (sample_externals false)
           (initialize 7 sample_request None)
           (Raise (Exception_ "KeyboardInterrupt")) [] [] []
           (ZMQApplicationProxy__init__ Bulk) H1 H2).
Defined.

Lemma execute_without_timeout_arms_no_timer_witness :
  httpserver.method sample_request ∈ SUPPORTED_METHODS ∧
  (∀ t, (None : option Z) = Some t → (t ≤ 0)%Z) ∧
  let o := @_execute (sample_externals false) (initialize 7 sample_request None)
             (Ok false) [] [] [] (ZMQApplicationProxy__init__ Bulk) in
  delayed (self_of o) = delayed (ZMQApplicationProxy__init__ Bulk) ∧
  _running (self_of o) = _running (ZMQApplicationProxy__init__ Bulk) ∧
  result_of o = Ok tt ∧
  _callbacks (self_of o)
    = <[@uuid4 (sample_externals false) (uuid4_calls (ZMQApplicationProxy__init__ Bulk))
          := (7, None)]> (_callbacks (ZMQApplicationProxy__init__ Bulk)).
Proof.
  assert (H1 : httpserver.method sample_request ∈ SUPPORTED_METHODS)
    by (apply (bool_decide_unpack _); vm_compute; exact I).
  assert (H2 : ∀ t, (None : option Z) = Some t → (t ≤ 0)%Z) by discriminate.
  split_and!; [exact H1|exact H2|].
  exact (@execute_without_timeout_arms_no_timer (sample_externals false) 7
           sample_request None [] [] [] (ZMQApplicationProxy__init__ Bulk) H1 H2).
Defined.
